(** * The orchestration service of Axon's server (packages/server/src/mL/index.ts)

    A shallow embedding of [MLService]: the readiness state machine run by
    [prepare], the per-project training-status table, the three pipeline
    drivers ([start], [export], [test]) and the live container controls
    ([halt], [pauseTraining], [resumeTraining]).

    An [async] method is a computation over a [World]: the two fields of the
    service object that the code uses ([status] and [trainer_state]), the
    project store behind [PseudoDatabase], the state of everything outside the
    process (container runtime, file system) and a history of what the method
    did.  A rejected promise or a thrown exception is the [Thrown] outcome.
    Each method is run here on its own, from its call to its settlement.

    The status table is followed as far as its own records go.  Where a
    lookup [this.status[id]] finds no record but something the plain object
    inherits (see [inherited]), the run is cut with the outcome
    [Thrown (Inherited id)], which is no outcome of the code; what depends on
    a missing record is stated for ids that are no inherited names. *)

From stdpp Require Import gmap strings list fin_maps.
From Stdlib Require Import ZArith.

Local Open Scope Z_scope.
Local Open Scope string_scope.
Local Open Scope list_scope.

(** ** Constants and enumerations *)

Definition DATASET_IMAGE : string := "gcperkins/wpilib-ml-dataset:latest".
Definition METRICS_IMAGE : string := "gcperkins/wpilib-ml-metrics:latest".
Definition EXPORT_IMAGE : string := "gcperkins/wpilib-ml-tflite:latest".
Definition TRAIN_IMAGE : string := "gcperkins/wpilib-ml-train:latest".
Definition TEST_IMAGE : string := "gcperkins/wpilib-ml-test:latest".

(** trainer state enumeration *)
Inductive TrainerState :=
| NO_DOCKER_INSTALLED
| SCANNING_FOR_DOCKER
| SCANNING_PROJECTS
| DATASET_PULL
| METRICS_PULL
| TRAINER_PULL
| EXPORT_PULL
| TEST_PULL
| READY.

(** The number TypeScript gives each member of the enum. *)
Definition TrainerState_value (s : TrainerState) : Z :=
  match s with
  | NO_DOCKER_INSTALLED => 0
  | SCANNING_FOR_DOCKER => 1
  | SCANNING_PROJECTS => 2
  | DATASET_PULL => 3
  | METRICS_PULL => 4
  | TRAINER_PULL => 5
  | EXPORT_PULL => 6
  | TEST_PULL => 7
  | READY => 8
  end.

(** training status enumeration *)
Inductive TrainingStatus :=
| NOT_TRAINING
| PREPARING
| TRAINING
| PAUSED.

#[global] Instance TrainerState_eq_dec : EqDecision TrainerState.
Proof. solve_decision. Defined.

#[global] Instance TrainingStatus_eq_dec : EqDecision TrainingStatus.
Proof. solve_decision. Defined.

(** ** Records *)

(** [ProjectStatus] of the GraphQL schema: one record per project in
    [this.status]. *)
Record ProjectStatus := {
  trainingStatus : TrainingStatus;
  currentEpoch : Z;
  lastEpoch : Z
}.

Record Hyperparameters := { epochs : Z }.

(** [train] is a container id or [null]. *)
Record ContainerIDs := { train : option string }.

(** [Project] of the store module: [start] reads nothing but its [id]. *)
Module Project.
Record t := { id : string }.
End Project.

(** [ProjectData] of the database module, with the fields the service reads
    or writes. *)
Module ProjectData.
Record t := {
  id : string;
  directory : string;
  hyperparameters : Hyperparameters;
  containerIDs : ContainerIDs
}.
End ProjectData.

#[global] Instance ProjectStatus_eq_dec : EqDecision ProjectStatus.
Proof. solve_decision. Defined.
#[global] Instance Hyperparameters_eq_dec : EqDecision Hyperparameters.
Proof. solve_decision. Defined.
#[global] Instance ContainerIDs_eq_dec : EqDecision ContainerIDs.
Proof. solve_decision. Defined.
#[global] Instance ProjectData_eq_dec : EqDecision ProjectData.t.
Proof. solve_decision. Defined.

(** [this.status[id].trainingStatus = s] on an existing record. *)
Definition set_trainingStatus (s : TrainingStatus) (r : ProjectStatus) : ProjectStatus :=
  {| trainingStatus := s; currentEpoch := currentEpoch r; lastEpoch := lastEpoch r |}.

Definition set_currentEpoch (n : Z) (r : ProjectStatus) : ProjectStatus :=
  {| trainingStatus := trainingStatus r; currentEpoch := n; lastEpoch := lastEpoch r |}.

Definition set_lastEpoch (n : Z) (r : ProjectStatus) : ProjectStatus :=
  {| trainingStatus := trainingStatus r; currentEpoch := currentEpoch r; lastEpoch := n |}.

(** [project.containerIDs.train = h]. *)
Definition set_train (h : option string) (p : ProjectData.t) : ProjectData.t :=
  {| ProjectData.id := ProjectData.id p;
     ProjectData.directory := ProjectData.directory p;
     ProjectData.hyperparameters := ProjectData.hyperparameters p;
     ProjectData.containerIDs := {| train := h |} |}.

(** JavaScript truthiness of a [string | null] and of a number that may be
    missing: [null], [undefined], the empty string and [0] are falsy. *)
Definition truthy_handle (h : option string) : bool :=
  match h with
  | Some s => negb (String.eqb s "")
  | None => false
  end.

Definition truthy_step (n : option Z) : bool :=
  match n with
  | Some k => negb (Z.eqb k 0)
  | None => false
  end.

(** ** Names an object inherits

    The own property names of [Object.prototype], which every object made by
    [{}] inherits, and the fields of a [ProjectStatus] record. *)
Definition Object_prototype_members : list string :=
  [ "constructor"; "__defineGetter__"; "__defineSetter__"; "hasOwnProperty";
    "__lookupGetter__"; "__lookupSetter__"; "isPrototypeOf";
    "propertyIsEnumerable"; "toString"; "valueOf"; "__proto__";
    "toLocaleString" ].

Definition ProjectStatus_fields : list string :=
  [ "trainingStatus"; "currentEpoch"; "lastEpoch" ].

(** The ids under which a lookup in the status table can find something
    that was not assigned there. *)
Definition inherited (id : string) : bool :=
  bool_decide (id ∈ Object_prototype_members ++ ProjectStatus_fields).

(** ** Outcomes *)

Inductive Err :=
| Rejected (reason : string)   (* [Promise.reject(reason)] *)
| TypeError                    (* a property of [undefined] read or written *)
| NotFound (key : string)      (* the store has no such project *)
| Failure (msg : string)       (* a collaborator's own error *)
| Inherited (id : string).     (* no error of the code: [this.status[id]] found what
                                  the table inherits, the run is not followed further *)

Inductive result (A : Type) :=
| Resolved (a : A)
| Thrown (e : Err).
Arguments Resolved {A} a.
Arguments Thrown {A} e.

#[global] Instance Err_eq_dec : EqDecision Err.
Proof. solve_decision. Defined.

(** What a call leaves in the history: [None] when it resolved, the error
    when it did not. *)
Definition failure_of {A} (r : result A) : option Err :=
  match r with
  | Resolved _ => None
  | Thrown e => Some e
  end.

(** How an awaited collaborator step ends: with a value, or failing with a
    reason of its own. *)
Inductive outcome (A : Type) :=
| Done (a : A)
| Failed (msg : string).
Arguments Done {A} a.
Arguments Failed {A} msg.

(** A collaborator step over the state [S] it may touch. *)
Definition Eff (S A : Type) : Type := S → outcome A * S.

(** The awaiting method resumes with the value, or is rejected with the
    collaborator's failure. *)
Definition settle {A} (o : outcome A) : result A :=
  match o with
  | Done a => Resolved a
  | Failed msg => Thrown (Failure msg)
  end.

(** ** Collaborators

    Of [Docker], [Trainer], [Exporter] and [Tester] the service sees the
    static methods it awaits.  The container runtime adapter works on the
    state outside the process; a stage executor may also read and write the
    project store.  None of them holds the service object, so none reaches
    [this.status] or [this.trainer_state]. *)

Abbreviation Database := (gmap string ProjectData.t).

Module Docker.
Record t (Ext : Type) := {
  testDaemon : Ext → bool * Ext;
  pull : string → Eff Ext unit;
  killContainer : string → Eff Ext unit;
  pauseContainer : string → Eff Ext unit;
  resumeContainer : string → Eff Ext unit
}.
Arguments testDaemon {Ext}.
Arguments pull {Ext}.
Arguments killContainer {Ext}.
Arguments pauseContainer {Ext}.
Arguments resumeContainer {Ext}.
End Docker.

Module Trainer.
Record t (Ext : Type) := {
  writeParameterFile : string → Eff (Database * Ext) unit;
  handleOldData : string → Eff (Database * Ext) unit;
  moveDataToMount : string → Eff (Database * Ext) unit;
  extractDataset : string → Eff (Database * Ext) unit;
  trainModel : string → Eff (Database * Ext) unit;
  (* the latest step, when there is one *)
  updateCheckpoints : string → Eff (Database * Ext) (option Z)
}.
Arguments writeParameterFile {Ext}.
Arguments handleOldData {Ext}.
Arguments moveDataToMount {Ext}.
Arguments extractDataset {Ext}.
Arguments trainModel {Ext}.
Arguments updateCheckpoints {Ext}.
End Trainer.

Module Exporter.
Record t (Ext Export : Type) := {
  locateCheckpoint : string → Z → Eff (Database * Ext) unit;
  createExport : string → string → Eff (Database * Ext) Export;
  createDestinationDirectory : Export → Eff (Database * Ext) unit;
  updateCheckpointStatus : string → Z → bool → Eff (Database * Ext) unit;
  writeParameterFile : string → Z → Export → Eff (Database * Ext) unit;
  exportCheckpoint : string → Eff (Database * Ext) unit;
  saveExport : string → Export → Z → Eff (Database * Ext) unit
}.
Arguments locateCheckpoint {Ext Export}.
Arguments createExport {Ext Export}.
Arguments createDestinationDirectory {Ext Export}.
Arguments updateCheckpointStatus {Ext Export}.
Arguments writeParameterFile {Ext Export}.
Arguments exportCheckpoint {Ext Export}.
Arguments saveExport {Ext Export}.
End Exporter.

Module Tester.
Record t (Ext Test : Type) := {
  createTest : string → string → string → string → Eff (Database * Ext) Test;
  mountModel : Test → string → Eff (Database * Ext) string;
  mountVideo : Test → string → Eff (Database * Ext) string;
  writeParameterFile : string → string → string → Eff (Database * Ext) unit;
  testModel : string → Eff (Database * Ext) unit;
  saveOutputVid : Test → string → Eff (Database * Ext) unit;
  saveTest : Test → string → Eff (Database * Ext) unit
}.
Arguments createTest {Ext Test}.
Arguments mountModel {Ext Test}.
Arguments mountVideo {Ext Test}.
Arguments writeParameterFile {Ext Test}.
Arguments testModel {Ext Test}.
Arguments saveOutputVid {Ext Test}.
Arguments saveTest {Ext Test}.
End Tester.

(** ** History

    The awaited calls of a method, with their arguments, and its writes to
    the service object, in the order the method makes them. *)

Inductive Call (Export Test : Type) :=
| DockerTestDaemon
| DockerPull (image : string)
| DockerKillContainer (h : string)
| DockerPauseContainer (h : string)
| DockerResumeContainer (h : string)
| DbRetrieveDatabase
| DbRetrieveProject (id : string)
| DbPushProject (p : ProjectData.t)
| TrainerWriteParameterFile (id : string)
| TrainerHandleOldData (id : string)
| TrainerMoveDataToMount (id : string)
| TrainerExtractDataset (id : string)
| TrainerTrainModel (id : string)
| TrainerUpdateCheckpoints (id : string)
| ExporterLocateCheckpoint (id : string) (checkpointNumber : Z)
| ExporterCreateExport (id : string) (name : string)
| ExporterCreateDestinationDirectory (exp : Export)
| ExporterUpdateCheckpointStatus (id : string) (checkpointNumber : Z) (inUse : bool)
| ExporterWriteParameterFile (id : string) (checkpointNumber : Z) (exp : Export)
| ExporterExportCheckpoint (id : string)
| ExporterSaveExport (id : string) (exp : Export) (checkpointNumber : Z)
| TesterCreateTest (testName projectID exportID videoID : string)
| TesterMountModel (test : Test) (dir : string)
| TesterMountVideo (test : Test) (dir : string)
| TesterWriteParameterFile (dir mountedModelPath mountedVideoPath : string)
| TesterTestModel (id : string)
| TesterSaveOutputVid (test : Test) (dir : string)
| TesterSaveTest (test : Test) (id : string).

Arguments DockerTestDaemon {Export Test}.
Arguments DockerPull {Export Test}.
Arguments DockerKillContainer {Export Test}.
Arguments DockerPauseContainer {Export Test}.
Arguments DockerResumeContainer {Export Test}.
Arguments DbRetrieveDatabase {Export Test}.
Arguments DbRetrieveProject {Export Test}.
Arguments DbPushProject {Export Test}.
Arguments TrainerWriteParameterFile {Export Test}.
Arguments TrainerHandleOldData {Export Test}.
Arguments TrainerMoveDataToMount {Export Test}.
Arguments TrainerExtractDataset {Export Test}.
Arguments TrainerTrainModel {Export Test}.
Arguments TrainerUpdateCheckpoints {Export Test}.
Arguments ExporterLocateCheckpoint {Export Test}.
Arguments ExporterCreateExport {Export Test}.
Arguments ExporterCreateDestinationDirectory {Export Test}.
Arguments ExporterUpdateCheckpointStatus {Export Test}.
Arguments ExporterWriteParameterFile {Export Test}.
Arguments ExporterExportCheckpoint {Export Test}.
Arguments ExporterSaveExport {Export Test}.
Arguments TesterCreateTest {Export Test}.
Arguments TesterMountModel {Export Test}.
Arguments TesterMountVideo {Export Test}.
Arguments TesterWriteParameterFile {Export Test}.
Arguments TesterTestModel {Export Test}.
Arguments TesterSaveOutputVid {Export Test}.
Arguments TesterSaveTest {Export Test}.

Inductive Event (Export Test : Type) :=
| EvTrainerState (s : TrainerState)                   (* [this.trainer_state = s] *)
| EvAddStatus (id : string) (r : ProjectStatus)       (* [this.status[id] = r] *)
| EvTrainingStatus (id : string) (s : TrainingStatus) (* [this.status[id].trainingStatus = s] *)
| EvCurrentEpoch (id : string) (n : Z)                (* [this.status[id].currentEpoch = n] *)
| EvLastEpoch (id : string) (n : Z)                   (* [this.status[id].lastEpoch = n] *)
| EvCall (c : Call Export Test) (failed : option Err).

Arguments EvTrainerState {Export Test}.
Arguments EvAddStatus {Export Test}.
Arguments EvTrainingStatus {Export Test}.
Arguments EvCurrentEpoch {Export Test}.
Arguments EvLastEpoch {Export Test}.
Arguments EvCall {Export Test}.

(** ** The service *)

Section MLService.
Context {Ext Export Test : Type}.
Context (docker : Docker.t Ext) (trainer : Trainer.t Ext).
Context (exporter : Exporter.t Ext Export) (tester : Tester.t Ext Test).

(** [status] and [trainer_state] are the fields of the service object (its
    [projects] field is declared and never used).  [status] holds the records
    assigned into the object [{}] that the code uses as a map from project id
    to record.  [database] is what [PseudoDatabase] holds, [ext] whatever the
    collaborators keep outside the process. *)
Record World := {
  status : gmap string ProjectStatus;
  trainer_state : TrainerState;
  database : Database;
  ext : Ext;
  history : list (Event Export Test)
}.

Definition M (A : Type) : Type := World → result A * World.

Definition ret {A} (a : A) : M A := λ w, (Resolved a, w).

Definition throw {A} (e : Err) : M A := λ w, (Thrown e, w).

(** Sequencing of awaited steps: the first that does not resolve settles
    the whole method. *)
Definition bind {A B} (m : M A) (k : A → M B) : M B :=
  λ w, match m w with
       | (Resolved a, w') => k a w'
       | (Thrown e, w') => (Thrown e, w')
       end.

#[global] Instance M_ret : MRet M := @ret.
#[global] Instance M_bind : MBind M := λ A B k m, bind m k.

Definition log (e : Event Export Test) (w : World) : World :=
  {| status := status w; trainer_state := trainer_state w;
     database := database w; ext := ext w; history := history w ++ [e] |}.

Definition with_status (st : gmap string ProjectStatus) (w : World) : World :=
  {| status := st; trainer_state := trainer_state w;
     database := database w; ext := ext w; history := history w |}.

Definition with_trainer_state (s : TrainerState) (w : World) : World :=
  {| status := status w; trainer_state := s;
     database := database w; ext := ext w; history := history w |}.

Definition with_database (d : Database) (w : World) : World :=
  {| status := status w; trainer_state := trainer_state w;
     database := d; ext := ext w; history := history w |}.

Definition with_ext (x : Ext) (w : World) : World :=
  {| status := status w; trainer_state := trainer_state w;
     database := database w; ext := x; history := history w |}.

(** An awaited call to the container runtime adapter. *)
Definition await_docker {A} (c : Call Export Test) (f : Eff Ext A) : M A :=
  λ w, let '(o, x) := f (ext w) in
       (settle o, log (EvCall c (failure_of (settle o))) (with_ext x w)).

(** An awaited call to a stage executor. *)
Definition await_stage {A} (c : Call Export Test) (f : Eff (Database * Ext) A) : M A :=
  λ w, let '(o, (d, x)) := f (database w, ext w) in
       (settle o, log (EvCall c (failure_of (settle o))) (with_ext x (with_database d w))).

(** *** PseudoDatabase *)

(** Modelled from the spec: [PseudoDatabase.retrieveDatabase], imported from
    ../datasources/PseudoDatabase and not part of index.ts; the store
    contract's [retrieveAll() -> collection<Project>], here the projects
    keyed by id. *)
Definition retrieveDatabase : M Database :=
  λ w, (Resolved (database w), log (EvCall DbRetrieveDatabase None) w).

(** Modelled from the spec: [PseudoDatabase.retrieveProject], imported from
    ../datasources/PseudoDatabase and not part of index.ts;
    [retrieveById(id) -> Project], failing with NotFound if absent.  The
    caller gets a copy of the stored record. *)
Definition retrieveProject (id : string) : M ProjectData.t :=
  λ w, match database w !! id with
       | Some p => (Resolved p, log (EvCall (DbRetrieveProject id) None) w)
       | None => (Thrown (NotFound id),
                  log (EvCall (DbRetrieveProject id) (Some (NotFound id))) w)
       end.

(** Modelled from the spec: [PseudoDatabase.pushProject], imported from
    ../datasources/PseudoDatabase and not part of index.ts;
    [persist(Project) -> completion], the record stored under its own id. *)
Definition pushProject (project : ProjectData.t) : M unit :=
  λ w, (Resolved (),
        log (EvCall (DbPushProject project) None)
          (with_database (<[ProjectData.id project := project]> (database w)) w)).

(** *** The status table *)

Definition addStatus (project : ProjectData.t) : M unit :=
  λ w, let r := {| trainingStatus := NOT_TRAINING;
                   currentEpoch := 0;
                   lastEpoch := epochs (ProjectData.hyperparameters project) |} in
       (Resolved (),
        log (EvAddStatus (ProjectData.id project) r)
          (with_status (<[ProjectData.id project := r]> (status w)) w)).

(** [this.status[id]] where no record has been assigned under [id].  The
    table is a plain object, so the lookup goes on to what the object
    inherits.  For most ids it finds nothing: the value is [undefined], and
    reading or writing a property of it throws a TypeError.  For the name of
    a member of [Object.prototype] it finds that member, and for the name of
    a field of a record it can find that field once a record has been
    assigned under [__proto__]: the code then goes on with a value that is
    not a record of the table.  Such a run is cut at the lookup, with
    [Inherited id] for its outcome, and nothing is said on what follows. *)
Definition missing (id : string) : Err :=
  if inherited id then Inherited id else TypeError.

Definition updateState (id : string) (newState : TrainingStatus) : M unit :=
  λ w, match status w !! id with
       | Some r => (Resolved (),
                    log (EvTrainingStatus id newState)
                      (with_status (<[id := set_trainingStatus newState r]> (status w)) w))
       | None => (Thrown (missing id), w)
       end.

Definition updateStep (id : string) (newStep : Z) : M unit :=
  λ w, match status w !! id with
       | Some r => (Resolved (),
                    log (EvCurrentEpoch id newStep)
                      (with_status (<[id := set_currentEpoch newStep r]> (status w)) w))
       | None => (Thrown (missing id), w)
       end.

Definition updateLastStep (id : string) (newLast : Z) : M unit :=
  λ w, match status w !! id with
       | Some r => (Resolved (),
                    log (EvLastEpoch id newLast)
                      (with_status (<[id := set_lastEpoch newLast r]> (status w)) w))
       | None => (Thrown (missing id), w)
       end.

(** The read [this.status[id].trainingStatus]. *)
Definition read_trainingStatus (id : string) : M TrainingStatus :=
  λ w, match status w !! id with
       | Some r => (Resolved (trainingStatus r), w)
       | None => (Thrown (missing id), w)
       end.

(** [getStatus] returns [this.status[id]]: the record, or [undefined] when
    there is none and the table inherits nothing under [id]. *)
Definition getStatus (id : string) : M (option ProjectStatus) :=
  λ w, match status w !! id with
       | Some r => (Resolved (Some r), w)
       | None => if inherited id then (Thrown (Inherited id), w) else (Resolved None, w)
       end.

(** *** Boot *)

Definition set_trainer_state (s : TrainerState) : M unit :=
  λ w, (Resolved (), log (EvTrainerState s) (with_trainer_state s w)).

Definition testDaemon : M bool :=
  λ w, let '(b, x) := Docker.testDaemon docker (ext w) in
       (Resolved b, log (EvCall DockerTestDaemon None) (with_ext x w)).

Definition pull (image : string) : M unit :=
  await_docker (DockerPull image) (Docker.pull docker image).

Fixpoint forEach {A} (l : list A) (f : A → M unit) : M unit :=
  match l with
  | [] => ret ()
  | a :: l' => f a;; forEach l' f
  end.

(** [Object.values(database)]; the order of the values matters to
    [addStatus] only when two stored records carry the same id. *)
Definition Object_values (d : Database) : list ProjectData.t := (map_to_list d).*2.

Definition prepare : M unit :=
  alive ← testDaemon;
  if negb alive then
    set_trainer_state NO_DOCKER_INSTALLED
  else
    set_trainer_state SCANNING_PROJECTS;;
    db ← retrieveDatabase;
    forEach (Object_values db) addStatus;;
    set_trainer_state DATASET_PULL;;
    pull DATASET_IMAGE;;
    set_trainer_state METRICS_PULL;;
    pull METRICS_IMAGE;;
    set_trainer_state TRAINER_PULL;;
    pull TRAIN_IMAGE;;
    set_trainer_state EXPORT_PULL;;
    pull EXPORT_IMAGE;;
    set_trainer_state TEST_PULL;;
    pull TEST_IMAGE;;
    set_trainer_state READY.

(** The constructor before it calls [prepare], over a given store and
    outside state. *)
Definition constructed (d : Database) (x : Ext) : World :=
  {| status := ∅; trainer_state := SCANNING_FOR_DOCKER;
     database := d; ext := x; history := [] |}.

(** *** Pipelines *)

Definition start (iproject : Project.t) : M string :=
  project ← retrieveProject (Project.id iproject);
  let ID := ProjectData.id project in
  updateLastStep ID (epochs (ProjectData.hyperparameters project));;
  updateState ID PREPARING;;
  await_stage (TrainerWriteParameterFile ID) (Trainer.writeParameterFile trainer ID);;
  await_stage (TrainerHandleOldData ID) (Trainer.handleOldData trainer ID);;
  await_stage (TrainerMoveDataToMount ID) (Trainer.moveDataToMount trainer ID);;
  await_stage (TrainerExtractDataset ID) (Trainer.extractDataset trainer ID);;
  updateState ID TRAINING;;
  updateStep ID 0;;
  await_stage (TrainerTrainModel ID) (Trainer.trainModel trainer ID);;
  await_stage (TrainerUpdateCheckpoints ID) (Trainer.updateCheckpoints trainer ID);;
  updateState ID NOT_TRAINING;;
  (* [project.containerIDs.train = null] on the copy fetched above; the push
     is not awaited *)
  pushProject (set_train None project);;
  mret "training complete".

Definition export (id : string) (checkpointNumber : Z) (name : string) : M string :=
  await_stage (ExporterLocateCheckpoint id checkpointNumber)
    (Exporter.locateCheckpoint exporter id checkpointNumber);;
  exp ← await_stage (ExporterCreateExport id name) (Exporter.createExport exporter id name);
  await_stage (ExporterCreateDestinationDirectory exp)
    (Exporter.createDestinationDirectory exporter exp);;
  await_stage (ExporterUpdateCheckpointStatus id checkpointNumber true)
    (Exporter.updateCheckpointStatus exporter id checkpointNumber true);;
  await_stage (ExporterWriteParameterFile id checkpointNumber exp)
    (Exporter.writeParameterFile exporter id checkpointNumber exp);;
  await_stage (ExporterExportCheckpoint id) (Exporter.exportCheckpoint exporter id);;
  await_stage (ExporterSaveExport id exp checkpointNumber)
    (Exporter.saveExport exporter id exp checkpointNumber);;
  await_stage (ExporterUpdateCheckpointStatus id checkpointNumber false)
    (Exporter.updateCheckpointStatus exporter id checkpointNumber false);;
  mret "exported".

Definition test (testName projectID exportID videoID : string) : M string :=
  test ← await_stage (TesterCreateTest testName projectID exportID videoID)
           (Tester.createTest tester testName projectID exportID videoID);
  project ← retrieveProject projectID;
  let dir := ProjectData.directory project in
  mountedModelPath ← await_stage (TesterMountModel test dir) (Tester.mountModel tester test dir);
  mountedVideoPath ← await_stage (TesterMountVideo test dir) (Tester.mountVideo tester test dir);
  await_stage (TesterWriteParameterFile dir mountedModelPath mountedVideoPath)
    (Tester.writeParameterFile tester dir mountedModelPath mountedVideoPath);;
  await_stage (TesterTestModel (ProjectData.id project))
    (Tester.testModel tester (ProjectData.id project));;
  await_stage (TesterSaveOutputVid test dir) (Tester.saveOutputVid tester test dir);;
  await_stage (TesterSaveTest test (ProjectData.id project))
    (Tester.saveTest tester test (ProjectData.id project));;
  mret "testing complete".

(** *** Live container control

    The three methods end with the assignment
    [this.status[project.id].trainingStatus = ...], which is what
    [updateState] does.  [halt] tests the handle for truthiness, the other
    two compare it with [null]. *)

Definition halt (id : string) : M unit :=
  project ← retrieveProject id;
  match train (ProjectData.containerIDs project) with
  | Some h =>
      if truthy_handle (Some h)
      then await_docker (DockerKillContainer h) (Docker.killContainer docker h)
      else throw (Rejected "no trainjob found")
  | None => throw (Rejected "no trainjob found")
  end;;
  updateState (ProjectData.id project) NOT_TRAINING.

Definition pauseTraining (id : string) : M unit :=
  project ← retrieveProject id;
  s ← read_trainingStatus id;
  if decide (s = PAUSED) then throw (Rejected "training is already paused")
  else
    match train (ProjectData.containerIDs project) with
    | None => throw (Rejected "no trainjob found")
    | Some h =>
        await_docker (DockerPauseContainer h) (Docker.pauseContainer docker h);;
        updateState (ProjectData.id project) PAUSED
    end.

Definition resumeTraining (id : string) : M unit :=
  project ← retrieveProject id;
  s ← read_trainingStatus id;
  if decide (s ≠ PAUSED) then throw (Rejected "training is not paused")
  else
    match train (ProjectData.containerIDs project) with
    | None => throw (Rejected "no trainjob found")
    | Some h =>
        await_docker (DockerResumeContainer h) (Docker.resumeContainer docker h);;
        updateState (ProjectData.id project) TRAINING
    end.

(** *** Checkpoint polling *)

Definition updateCheckpoints (id : string) : M unit :=
  currentStep ← await_stage (TrainerUpdateCheckpoints id) (Trainer.updateCheckpoints trainer id);
  match currentStep with
  | Some n => if truthy_step (Some n) then updateStep id n else mret ()
  | None => mret ()
  end.

(** ** Reading a history *)

(** The training statuses written to the record of [id], oldest first. *)
Fixpoint statuses_written (id : string) (h : list (Event Export Test)) : list TrainingStatus :=
  match h with
  | [] => []
  | EvTrainingStatus i s :: h' =>
      if decide (i = id) then s :: statuses_written id h' else statuses_written id h'
  | EvAddStatus i r :: h' =>
      if decide (i = id) then trainingStatus r :: statuses_written id h'
      else statuses_written id h'
  | _ :: h' => statuses_written id h'
  end.

(** The statuses a reader of [getStatus(id)] can have seen over a run that
    began with the record at [s0]. *)
Definition statuses_observed (id : string) (s0 : TrainingStatus)
    (h : list (Event Export Test)) : list TrainingStatus :=
  s0 :: statuses_written id h.

(** What [start] does, step by step, when every step resolves: [key] is the
    id it was called with, [project] the record it fetched. *)
Definition start_history (key : string) (project : ProjectData.t) :
    list (Event Export Test) :=
  let ID := ProjectData.id project in
  [ EvCall (DbRetrieveProject key) None;
    EvLastEpoch ID (epochs (ProjectData.hyperparameters project));
    EvTrainingStatus ID PREPARING;
    EvCall (TrainerWriteParameterFile ID) None;
    EvCall (TrainerHandleOldData ID) None;
    EvCall (TrainerMoveDataToMount ID) None;
    EvCall (TrainerExtractDataset ID) None;
    EvTrainingStatus ID TRAINING;
    EvCurrentEpoch ID 0;
    EvCall (TrainerTrainModel ID) None;
    EvCall (TrainerUpdateCheckpoints ID) None;
    EvTrainingStatus ID NOT_TRAINING;
    EvCall (DbPushProject (set_train None project)) None ].

(** The steps of the boot sequence that readiness is about. *)
Inductive BootStep :=
| Enter (s : TrainerState)
| Pull (image : string).

#[global] Instance BootStep_eq_dec : EqDecision BootStep.
Proof. solve_decision. Defined.

Fixpoint boot_steps (h : list (Event Export Test)) : list BootStep :=
  match h with
  | [] => []
  | EvTrainerState s :: h' => Enter s :: boot_steps h'
  | EvCall (DockerPull image) _ :: h' => Pull image :: boot_steps h'
  | _ :: h' => boot_steps h'
  end.

Definition states_entered (l : list BootStep) : list TrainerState :=
  omap (λ b, match b with Enter s => Some s | Pull _ => None end) l.

Definition images_pulled (l : list BootStep) : list string :=
  omap (λ b, match b with Enter _ => None | Pull i => Some i end) l.

(** The boot of a service whose runtime answers, as [prepare] lists it. *)
Definition boot_script : list BootStep :=
  [ Enter SCANNING_PROJECTS;
    Enter DATASET_PULL; Pull DATASET_IMAGE;
    Enter METRICS_PULL; Pull METRICS_IMAGE;
    Enter TRAINER_PULL; Pull TRAIN_IMAGE;
    Enter EXPORT_PULL; Pull EXPORT_IMAGE;
    Enter TEST_PULL; Pull TEST_IMAGE;
    Enter READY ].

Definition readiness_order : list TrainerState :=
  [ SCANNING_FOR_DOCKER; SCANNING_PROJECTS; DATASET_PULL; METRICS_PULL;
    TRAINER_PULL; EXPORT_PULL; TEST_PULL; READY ].

(** The image pulled in each pulling state. *)
Definition image_of_state (s : TrainerState) : option string :=
  match s with
  | DATASET_PULL => Some DATASET_IMAGE
  | METRICS_PULL => Some METRICS_IMAGE
  | TRAINER_PULL => Some TRAIN_IMAGE
  | EXPORT_PULL => Some EXPORT_IMAGE
  | TEST_PULL => Some TEST_IMAGE
  | _ => None
  end.

(** A computation that leaves the status table as it found it, however it
    settles. *)
Definition keeps_status {A} (m : M A) : Prop :=
  ∀ w, status (m w).2 = status w.

(** Modelled from the spec: the in-use mark of a checkpoint, kept by
    [Exporter.updateCheckpointStatus], imported from ./Exporter and not part
    of index.ts; the mark is what the last resolved call on that checkpoint
    set it to, [mark] when there was none. *)
Fixpoint in_use (id : string) (checkpointNumber : Z) (mark : bool)
    (h : list (Event Export Test)) : bool :=
  match h with
  | [] => mark
  | EvCall (ExporterUpdateCheckpointStatus i n b) None :: h' =>
      if decide (i = id ∧ n = checkpointNumber)
      then in_use id checkpointNumber b h'
      else in_use id checkpointNumber mark h'
  | _ :: h' => in_use id checkpointNumber mark h'
  end.

(** The steps of [export] between setting and clearing the mark. *)
Definition inside_bracket (c : Call Export Test) : bool :=
  match c with
  | ExporterWriteParameterFile _ _ _
  | ExporterExportCheckpoint _
  | ExporterSaveExport _ _ _ => true
  | _ => false
  end.

(** ** The handle and the status *)





(** Every record of the store sits under its own id. *)
Definition well_keyed (d : Database) : Prop :=
  ∀ k p, d !! k = Some p → ProjectData.id p = k.

(** Whether the trainer's answer to a poll carries a step that
    [updateCheckpoints] will write. *)
Definition reports_step (o : outcome (option Z)) : bool :=
  match o with
  | Done n => truthy_step n
  | Failed _ => false
  end.

(** The status table after a poll that was answered with [o]. *)
Definition polled (id : string) (o : outcome (option Z))
    (st : gmap string ProjectStatus) : gmap string ProjectStatus :=
  match o with
  | Done (Some n) =>
      if truthy_step (Some n)
      then match st !! id with
           | Some r => <[id := set_currentEpoch n r]> st
           | None => st
           end
      else st
  | _ => st
  end.

(** A step that resolves whatever state it is run in. *)
Definition resolves {S A : Type} (f : Eff S A) : Prop :=
  ∀ s, ∃ a s', f s = (Done a, s').

(** A trainer none of whose steps fails. *)
Definition reliable_trainer : Prop :=
  ∀ id,
    resolves (Trainer.writeParameterFile trainer id)
    ∧ resolves (Trainer.handleOldData trainer id)
    ∧ resolves (Trainer.moveDataToMount trainer id)
    ∧ resolves (Trainer.extractDataset trainer id)
    ∧ resolves (Trainer.trainModel trainer id)
    ∧ resolves (Trainer.updateCheckpoints trainer id).

End MLService.

(** ** A service to run

    Collaborators that keep nothing outside the process and resolve at every
    call, a store of one project, and the worlds the examples start from. *)

Module Sample.
Definition resolve {S A : Type} (a : A) : Eff S A := λ s, (Done a, s).

Definition docker : Docker.t unit :=
  {| Docker.testDaemon := λ x, (true, x);
     Docker.pull := λ _, resolve ();
     Docker.killContainer := λ _, resolve ();
     Docker.pauseContainer := λ _, resolve ();
     Docker.resumeContainer := λ _, resolve () |}.

(** A runtime that does not answer. *)
Definition no_docker : Docker.t unit :=
  {| Docker.testDaemon := λ x, (false, x);
     Docker.pull := λ _, resolve ();
     Docker.killContainer := λ _, resolve ();
     Docker.pauseContainer := λ _, resolve ();
     Docker.resumeContainer := λ _, resolve () |}.

Definition trainer : Trainer.t unit :=
  {| Trainer.writeParameterFile := λ _, resolve ();
     Trainer.handleOldData := λ _, resolve ();
     Trainer.moveDataToMount := λ _, resolve ();
     Trainer.extractDataset := λ _, resolve ();
     Trainer.trainModel := λ _, resolve ();
     Trainer.updateCheckpoints := λ _, resolve (Some 7) |}.


(** The export is known by its name. *)
Definition exporter : Exporter.t unit string :=
  {| Exporter.locateCheckpoint := λ _ _, resolve ();
     Exporter.createExport := λ _ name, resolve name;
     Exporter.createDestinationDirectory := λ _, resolve ();
     Exporter.updateCheckpointStatus := λ _ _ _, resolve ();
     Exporter.writeParameterFile := λ _ _ _, resolve ();
     Exporter.exportCheckpoint := λ _, resolve ();
     Exporter.saveExport := λ _ _ _, resolve () |}.

(** An exporter whose conversion container fails. *)
Definition failing_exporter : Exporter.t unit string :=
  {| Exporter.locateCheckpoint := λ _ _, resolve ();
     Exporter.createExport := λ _ name, resolve name;
     Exporter.createDestinationDirectory := λ _, resolve ();
     Exporter.updateCheckpointStatus := λ _ _ _, resolve ();
     Exporter.writeParameterFile := λ _ _ _, resolve ();
     Exporter.exportCheckpoint := λ _ s, (Failed "container exited", s);
     Exporter.saveExport := λ _ _ _, resolve () |}.

(** The test is known by its name. *)
Definition tester : Tester.t unit string :=
  {| Tester.createTest := λ testName _ _ _, resolve testName;
     Tester.mountModel := λ _ _, resolve "model.tflite";
     Tester.mountVideo := λ _ _, resolve "video.mp4";
     Tester.writeParameterFile := λ _ _ _, resolve ();
     Tester.testModel := λ _, resolve ();
     Tester.saveOutputVid := λ _ _, resolve ();
     Tester.saveTest := λ _ _, resolve () |}.

Definition project (h : option string) : ProjectData.t :=
  {| ProjectData.id := "p";
     ProjectData.directory := "data/p";
     ProjectData.hyperparameters := {| epochs := 50 |};
     ProjectData.containerIDs := {| train := h |} |}.

Definition world (h : option string) (records : gmap string ProjectStatus) :
    @World unit string string :=
  {| status := records;
     trainer_state := READY;
     database := {[ "p" := project h ]};
     ext := ();
     history := [] |}.

Definition record (s : TrainingStatus) (epoch : Z) : ProjectStatus :=
  {| trainingStatus := s; currentEpoch := epoch; lastEpoch := 50 |}.

(** No run in progress. *)
Definition idle : @World unit string string :=
  world None {[ "p" := record NOT_TRAINING 0 ]}.

(** A run in progress in container [c1], at epoch 3. *)
Definition training : @World unit string string :=
  world (Some "c1") {[ "p" := record TRAINING 3 ]}.

(** The same run, paused. *)
Definition paused : @World unit string string :=
  world (Some "c1") {[ "p" := record PAUSED 3 ]}.

(** A paused record whose project has lost its handle. *)
Definition orphaned : @World unit string string :=
  world None {[ "p" := record PAUSED 3 ]}.

(** A project of the store that the status table has not seen. *)
Definition unseen : @World unit string string :=
  world (Some "c1") ∅.
End Sample.

(** ** More to read off a run *)

Section Observing.
Context {Ext Export Test : Type}.
Implicit Types (w : @World Ext Export Test).

(** The record [addStatus] writes for a project. *)
Definition seeded (p : ProjectData.t) : ProjectStatus :=
  {| trainingStatus := NOT_TRAINING;
     currentEpoch := 0;
     lastEpoch := epochs (ProjectData.hyperparameters p) |}.

(** The status table after [addStatus] on each project of a list, first to
    last. *)
Definition seed (st : gmap string ProjectStatus) (l : list ProjectData.t) :
    gmap string ProjectStatus :=
  foldl (λ st p, <[ProjectData.id p := seeded p]> st) st l.

(** A computation that neither reads nor writes [this.trainer_state]: run
    in any readiness state it does the same. *)
Definition ignores_readiness {A} (m : @M Ext Export Test A) : Prop :=
  ∀ s w, m (with_trainer_state s w) = ((m w).1, with_trainer_state s (m w).2).

(** The projects pushed to the store in a history, oldest first. *)
Definition pushed (h : list (Event Export Test)) : list ProjectData.t :=
  omap (λ e, match e with
             | EvCall (DbPushProject p) _ => Some p
             | _ => None
             end) h.

(** The calls to the trainer in a history, oldest first. *)
Definition is_trainer_call (c : Call Export Test) : bool :=
  match c with
  | TrainerWriteParameterFile _ | TrainerHandleOldData _ | TrainerMoveDataToMount _
  | TrainerExtractDataset _ | TrainerTrainModel _ | TrainerUpdateCheckpoints _ => true
  | _ => false
  end.

Definition is_docker_call (c : Call Export Test) : bool :=
  match c with
  | DockerTestDaemon | DockerPull _ | DockerKillContainer _
  | DockerPauseContainer _ | DockerResumeContainer _ => true
  | _ => false
  end.

Definition calls (h : list (Event Export Test)) : list (Call Export Test) :=
  omap (λ e, match e with EvCall c _ => Some c | _ => None end) h.

(** The steps of [start] that prepare the data, before the status is set to
    [TRAINING]. *)
Definition is_preparation (c : Call Export Test) : bool :=
  match c with
  | TrainerWriteParameterFile _ | TrainerHandleOldData _ | TrainerMoveDataToMount _
  | TrainerExtractDataset _ => true
  | _ => false
  end.

(** What [test] does, step by step, when every step resolves: [t] is the
    test [createTest] returned, [project] the record fetched, [model] and
    [video] the paths the two mounts returned. *)
Definition test_history (testName projectID exportID videoID : string) (t : Test)
    (project : ProjectData.t) (model video : string) : list (Event Export Test) :=
  let dir := ProjectData.directory project in
  [ EvCall (TesterCreateTest testName projectID exportID videoID) None;
    EvCall (DbRetrieveProject projectID) None;
    EvCall (TesterMountModel t dir) None;
    EvCall (TesterMountVideo t dir) None;
    EvCall (TesterWriteParameterFile dir model video) None;
    EvCall (TesterTestModel (ProjectData.id project)) None;
    EvCall (TesterSaveOutputVid t dir) None;
    EvCall (TesterSaveTest t (ProjectData.id project)) None ].

(** A step whose value the caller does not use. *)
Definition forget {S A : Type} (f : Eff S A) : Eff S unit :=
  λ s, match f s with
       | (Done _, s') => (Done (), s')
       | (Failed msg, s') => (Failed msg, s')
       end.

(** Steps awaited one after the other, each run in the state the one
    before it left: the first that fails, with its failure; [None] when
    all of them resolve. *)
Fixpoint first_failure {S : Type} (steps : list (Call Export Test * Eff S unit)) (s : S) :
    option (Call Export Test * string) :=
  match steps with
  | [] => None
  | (c, f) :: rest =>
      match f s with
      | (Done _, s') => first_failure rest s'
      | (Failed msg, _) => Some (c, msg)
      end
  end.

(** What [start] awaits from the trainer for the project [ID], in its
    order. *)
Definition trainer_steps (trainer : Trainer.t Ext) (ID : string) :
    list (Call Export Test * Eff (Database * Ext) unit) :=
  [ (TrainerWriteParameterFile ID, Trainer.writeParameterFile trainer ID);
    (TrainerHandleOldData ID, Trainer.handleOldData trainer ID);
    (TrainerMoveDataToMount ID, Trainer.moveDataToMount trainer ID);
    (TrainerExtractDataset ID, Trainer.extractDataset trainer ID);
    (TrainerTrainModel ID, Trainer.trainModel trainer ID);
    (TrainerUpdateCheckpoints ID, forget (Trainer.updateCheckpoints trainer ID)) ].


(** What [prepare] awaits from the runtime once it answers, in its order. *)
Definition boot_pulls (docker : Docker.t Ext) : list (Call Export Test * Eff Ext unit) :=
  [ (DockerPull DATASET_IMAGE, Docker.pull docker DATASET_IMAGE);
    (DockerPull METRICS_IMAGE, Docker.pull docker METRICS_IMAGE);
    (DockerPull TRAIN_IMAGE, Docker.pull docker TRAIN_IMAGE);
    (DockerPull EXPORT_IMAGE, Docker.pull docker EXPORT_IMAGE);
    (DockerPull TEST_IMAGE, Docker.pull docker TEST_IMAGE) ].

(** A list of boot steps up to and including the first occurrence of one
    of them. *)
Fixpoint through (b : BootStep) (l : list BootStep) : list BootStep :=
  match l with
  | [] => []
  | a :: l' => if decide (a = b) then [a] else a :: through b l'
  end.
End Observing.

(** ** Collaborators that fail *)

Module Faulty.
(** A runtime that answers and pulls but cannot kill, pause or resume. *)
Definition docker : Docker.t unit :=
  {| Docker.testDaemon := λ x, (true, x);
     Docker.pull := λ _, Sample.resolve ();
     Docker.killContainer := λ _ s, (Failed "no such container", s);
     Docker.pauseContainer := λ _ s, (Failed "no such container", s);
     Docker.resumeContainer := λ _ s, (Failed "no such container", s) |}.

(** A runtime that answers and cannot pull the metrics image. *)
Definition offline : Docker.t unit :=
  {| Docker.testDaemon := λ x, (true, x);
     Docker.pull := λ image s,
       if String.eqb image METRICS_IMAGE then (Failed "pull failed", s) else (Done (), s);
     Docker.killContainer := λ _, Sample.resolve ();
     Docker.pauseContainer := λ _, Sample.resolve ();
     Docker.resumeContainer := λ _, Sample.resolve () |}.

(** A trainer whose training container fails. *)
Definition trainer : Trainer.t unit :=
  {| Trainer.writeParameterFile := λ _, Sample.resolve ();
     Trainer.handleOldData := λ _, Sample.resolve ();
     Trainer.moveDataToMount := λ _, Sample.resolve ();
     Trainer.extractDataset := λ _, Sample.resolve ();
     Trainer.trainModel := λ _ s, (Failed "container exited", s);
     Trainer.updateCheckpoints := λ _, Sample.resolve (Some 7) |}.

(** A trainer that cannot write the parameter file. *)
Definition unprepared : Trainer.t unit :=
  {| Trainer.writeParameterFile := λ _ s, (Failed "disk full", s);
     Trainer.handleOldData := λ _, Sample.resolve ();
     Trainer.moveDataToMount := λ _, Sample.resolve ();
     Trainer.extractDataset := λ _, Sample.resolve ();
     Trainer.trainModel := λ _, Sample.resolve ();
     Trainer.updateCheckpoints := λ _, Sample.resolve (Some 7) |}.

(** An exporter that does not find the checkpoint. *)
Definition exporter : Exporter.t unit string :=
  {| Exporter.locateCheckpoint := λ _ _ s, (Failed "checkpoint not found", s);
     Exporter.createExport := λ _ name, Sample.resolve name;
     Exporter.createDestinationDirectory := λ _, Sample.resolve ();
     Exporter.updateCheckpointStatus := λ _ _ _, Sample.resolve ();
     Exporter.writeParameterFile := λ _ _ _, Sample.resolve ();
     Exporter.exportCheckpoint := λ _, Sample.resolve ();
     Exporter.saveExport := λ _ _ _, Sample.resolve () |}.

(** A store of two projects. *)
Definition second : ProjectData.t :=
  {| ProjectData.id := "q";
     ProjectData.directory := "data/q";
     ProjectData.hyperparameters := {| epochs := 20 |};
     ProjectData.containerIDs := {| train := None |} |}.

Definition store : Database :=
  {[ "p" := Sample.project None; "q" := second ]}.


End Faulty.

(** ** The project menu (ProjectSelect.tsx)

    The component as a function of what its two hooks hand it: the text
    selected so far ([useState]) and the state of the [GetProjects] query
    ([useQuery]). *)

Module ProjectSelect.





End ProjectSelect.

(** * Properties of the service *)

(** ** Stepping through a method *)

Ltac find_elem :=
  repeat first [apply list_elem_of_here | apply list_elem_of_further].

Section Steps.
Context {Ext Export Test : Type}.
Implicit Types (w : @World Ext Export Test).

Lemma bind_resolved {A B} (m : M A) (k : A → M B) w (b : B) w'' :
  (m ≫= k) w = (Resolved b, w'') →
  ∃ a w', m w = (Resolved a, w') ∧ k a w' = (Resolved b, w'').
Proof.
  unfold mbind, M_bind, bind. destruct (m w) as [[a|e] w']; [eauto|done].
Qed.

Lemma mret_resolved {A} (a b : A) w w' :
  (mret a : M A) w = (Resolved b, w') → b = a ∧ w' = w.
Proof. unfold mret, M_ret, ret. by intros [= -> ->]. Qed.

Lemma retrieveProject_resolved id (p : ProjectData.t) w w' :
  retrieveProject id w = (Resolved p, w') →
  database w !! id = Some p ∧ w' = log (EvCall (DbRetrieveProject id) None) w.
Proof.
  unfold retrieveProject. destruct (database w !! id); [|done]. by intros [= -> <-].
Qed.

Lemma updateState_resolved id s u w w' :
  updateState id s w = (Resolved u, w') →
  ∃ r, status w !! id = Some r
       ∧ w' = log (EvTrainingStatus id s)
                (with_status (<[id := set_trainingStatus s r]> (status w)) w).
Proof.
  unfold updateState. destruct (status w !! id) as [r|]; [|done].
  intros [= _ <-]. eauto.
Qed.

Lemma updateStep_resolved id n u w w' :
  updateStep id n w = (Resolved u, w') →
  ∃ r, status w !! id = Some r
       ∧ w' = log (EvCurrentEpoch id n)
                (with_status (<[id := set_currentEpoch n r]> (status w)) w).
Proof.
  unfold updateStep. destruct (status w !! id) as [r|]; [|done].
  intros [= _ <-]. eauto.
Qed.

Lemma updateLastStep_resolved id n u w w' :
  updateLastStep id n w = (Resolved u, w') →
  ∃ r, status w !! id = Some r
       ∧ w' = log (EvLastEpoch id n)
                (with_status (<[id := set_lastEpoch n r]> (status w)) w).
Proof.
  unfold updateLastStep. destruct (status w !! id) as [r|]; [|done].
  intros [= _ <-]. eauto.
Qed.

Lemma await_stage_resolved {A} c (f : Eff (Database * Ext) A) (a : A) w w' :
  await_stage c f w = (Resolved a, w') →
  ∃ d x, f (database w, ext w) = (Done a, (d, x))
         ∧ w' = log (EvCall c None) (with_ext x (with_database d w)).
Proof.
  unfold await_stage. destruct (f (database w, ext w)) as [[a'|msg] [d x]]; simpl; [|done].
  intros [= -> <-]. eauto.
Qed.

(** A collaborator call leaves the service object alone. *)
Lemma await_stage_status {A} c (f : Eff (Database * Ext) A) w :
  status (await_stage c f w).2 = status w
  ∧ trainer_state (await_stage c f w).2 = trainer_state w.
Proof.
  unfold await_stage. by destruct (f (database w, ext w)) as [o [d x]].
Qed.

Lemma bind_step {A B} (m : M A) (k : A → M B) w (a : A) w' :
  m w = (Resolved a, w') → (m ≫= k) w = k a w'.
Proof. unfold mbind, M_bind, bind. by intros ->. Qed.

Lemma await_stage_done {A} c (f : Eff (Database * Ext) A) w :
  (∃ a s', f (database w, ext w) = (Done a, s')) →
  ∃ a w', await_stage c f w = (Resolved a, w') ∧ status w' = status w.
Proof.
  intros (a & [d x] & Hf). unfold await_stage. rewrite Hf. by eexists _, _.
Qed.
End Steps.

(** ** Live container control *)

Section Control.
Context {Ext Export Test : Type} (docker : Docker.t Ext).
Implicit Types (w : @World Ext Export Test) (p : ProjectData.t).
Implicit Types (id h : string) (r : ProjectStatus).

(** C4. For a project [id] of the store, [halt id] is rejected with
    "no trainjob found" when the project has no training container handle
    ([null] or, by the truthiness test of the code, the empty string), and
    nothing is asked of the runtime.  When there is one, [halt] kills that
    container and, once the kill has resolved, sets the [trainingStatus] of
    the project's record to [NOT_TRAINING], leaving the rest of the table,
    the store and the epochs as they were. *)
Theorem halt_kills_or_rejects id p w :
  database w !! id = Some p →
  (truthy_handle (train (ProjectData.containerIDs p)) = false →
     ∃ w', halt docker id w = (Thrown (Rejected "no trainjob found"), w')
           ∧ status w' = status w ∧ database w' = database w ∧ ext w' = ext w
           ∧ history w' = history w ++ [EvCall (DbRetrieveProject id) None])
  ∧ (∀ h r x,
       train (ProjectData.containerIDs p) = Some h →
       truthy_handle (Some h) = true →
       status w !! ProjectData.id p = Some r →
       Docker.killContainer docker h (ext w) = (Done (), x) →
       ∃ w', halt docker id w = (Resolved (), w')
             ∧ status w' = <[ProjectData.id p := set_trainingStatus NOT_TRAINING r]> (status w)
             ∧ database w' = database w ∧ ext w' = x
             ∧ history w' = history w ++
                 [ EvCall (DbRetrieveProject id) None;
                   EvCall (DockerKillContainer h) None;
                   EvTrainingStatus (ProjectData.id p) NOT_TRAINING ]).
Proof.
  intros Hp. split.
  - intros Hf. unfold halt, mbind, M_bind, bind, retrieveProject. rewrite Hp.
    destruct (train (ProjectData.containerIDs p)) as [h|]; [rewrite Hf|];
      (eexists; split; [reflexivity|]; simpl; auto).
  - intros h r x Hh Ht Hr Hk.
    unfold halt, mbind, M_bind, bind, retrieveProject, await_docker, updateState.
    rewrite Hp, Hh, Ht. simpl. rewrite Hk. simpl. rewrite Hr.
    eexists; split; [reflexivity|]. simpl. rewrite <- !app_assoc. auto.
Qed.

(** C5. For a project [id] of the store with a status record,
    [pauseTraining id] is rejected with "training is already paused" when
    the record is [PAUSED], and otherwise with "no trainjob found" when the
    project has no training container handle; either rejection leaves the
    status table as it was and asks nothing of the runtime.  Otherwise the
    container of the handle is paused and, once that has resolved, the
    [trainingStatus] of the project's record is [PAUSED].  However
    [pauseTraining] comes to be rejected, the status table is as it was. *)
Theorem pauseTraining_rejects_or_pauses id p r w :
  database w !! id = Some p →
  status w !! id = Some r →
  (trainingStatus r = PAUSED →
     ∃ w', pauseTraining docker id w = (Thrown (Rejected "training is already paused"), w')
           ∧ status w' = status w ∧ database w' = database w ∧ ext w' = ext w
           ∧ history w' = history w ++ [EvCall (DbRetrieveProject id) None])
  ∧ (trainingStatus r ≠ PAUSED →
     train (ProjectData.containerIDs p) = None →
     ∃ w', pauseTraining docker id w = (Thrown (Rejected "no trainjob found"), w')
           ∧ status w' = status w ∧ database w' = database w ∧ ext w' = ext w
           ∧ history w' = history w ++ [EvCall (DbRetrieveProject id) None])
  ∧ (∀ h r' x,
       trainingStatus r ≠ PAUSED →
       train (ProjectData.containerIDs p) = Some h →
       status w !! ProjectData.id p = Some r' →
       Docker.pauseContainer docker h (ext w) = (Done (), x) →
       ∃ w', pauseTraining docker id w = (Resolved (), w')
             ∧ status w' = <[ProjectData.id p := set_trainingStatus PAUSED r']> (status w)
             ∧ database w' = database w ∧ ext w' = x
             ∧ history w' = history w ++
                 [ EvCall (DbRetrieveProject id) None;
                   EvCall (DockerPauseContainer h) None;
                   EvTrainingStatus (ProjectData.id p) PAUSED ])
  ∧ (∀ e w', pauseTraining docker id w = (Thrown e, w') → status w' = status w).
Proof.
  intros Hp Hr. split; [|split; [|split]].
  - intros Hs.
    unfold pauseTraining, mbind, M_bind, bind, retrieveProject, read_trainingStatus.
    rewrite Hp. simpl. rewrite Hr, Hs. simpl.
    eexists; split; [reflexivity|]. auto.
  - intros Hs Hh.
    unfold pauseTraining, mbind, M_bind, bind, retrieveProject, read_trainingStatus.
    rewrite Hp. simpl. rewrite Hr. rewrite decide_False by done. rewrite Hh.
    eexists; split; [reflexivity|]. auto.
  - intros h r' x Hs Hh Hr' Hk.
    unfold pauseTraining, mbind, M_bind, bind, retrieveProject, read_trainingStatus,
      await_docker, updateState.
    rewrite Hp. simpl. rewrite Hr. rewrite decide_False by done. rewrite Hh.
    simpl. rewrite Hk. simpl. rewrite Hr'.
    eexists; split; [reflexivity|]. simpl. rewrite <- !app_assoc. auto.
  - intros e w'.
    unfold pauseTraining, mbind, M_bind, bind, retrieveProject, read_trainingStatus,
      throw, await_docker, updateState.
    rewrite Hp. simpl. rewrite Hr.
    destruct (decide (trainingStatus r = PAUSED)); [by intros [= _ <-]|].
    destruct (train (ProjectData.containerIDs p)) as [h|]; [|by intros [= _ <-]]. simpl.
    destruct (Docker.pauseContainer docker h (ext w)) as [[[]|msg] x]; simpl;
      [|by intros [= _ <-]].
    destruct (status w !! ProjectData.id p); [done|by intros [= _ <-]].
Qed.

(** C6. For a project [id] of the store with a status record,
    [resumeTraining id] is rejected with "training is not paused" when the
    record is not [PAUSED] ([NOT_TRAINING] among them), and otherwise with
    "no trainjob found" when the project has no training container handle.
    Otherwise the container of the handle is resumed and, once that has
    resolved, the [trainingStatus] of the project's record is [TRAINING]. *)
Theorem resumeTraining_rejects_or_resumes id p r w :
  database w !! id = Some p →
  status w !! id = Some r →
  (trainingStatus r ≠ PAUSED →
     ∃ w', resumeTraining docker id w = (Thrown (Rejected "training is not paused"), w')
           ∧ status w' = status w ∧ database w' = database w ∧ ext w' = ext w
           ∧ history w' = history w ++ [EvCall (DbRetrieveProject id) None])
  ∧ (trainingStatus r = NOT_TRAINING →
     ∃ w', resumeTraining docker id w = (Thrown (Rejected "training is not paused"), w')
           ∧ status w' = status w)
  ∧ (trainingStatus r = PAUSED →
     train (ProjectData.containerIDs p) = None →
     ∃ w', resumeTraining docker id w = (Thrown (Rejected "no trainjob found"), w')
           ∧ status w' = status w ∧ database w' = database w ∧ ext w' = ext w
           ∧ history w' = history w ++ [EvCall (DbRetrieveProject id) None])
  ∧ (∀ h r' x,
       trainingStatus r = PAUSED →
       train (ProjectData.containerIDs p) = Some h →
       status w !! ProjectData.id p = Some r' →
       Docker.resumeContainer docker h (ext w) = (Done (), x) →
       ∃ w', resumeTraining docker id w = (Resolved (), w')
             ∧ status w' = <[ProjectData.id p := set_trainingStatus TRAINING r']> (status w)
             ∧ database w' = database w ∧ ext w' = x
             ∧ history w' = history w ++
                 [ EvCall (DbRetrieveProject id) None;
                   EvCall (DockerResumeContainer h) None;
                   EvTrainingStatus (ProjectData.id p) TRAINING ]).
Proof.
  intros Hp Hr.
  assert (Hnot : trainingStatus r ≠ PAUSED →
     ∃ w', resumeTraining docker id w = (Thrown (Rejected "training is not paused"), w')
           ∧ status w' = status w ∧ database w' = database w ∧ ext w' = ext w
           ∧ history w' = history w ++ [EvCall (DbRetrieveProject id) None]).
  { intros Hs.
    unfold resumeTraining, mbind, M_bind, bind, retrieveProject, read_trainingStatus.
    rewrite Hp. simpl. rewrite Hr. rewrite decide_True by done.
    eexists; split; [reflexivity|]. auto. }
  split; [exact Hnot|]. split; [|split].
  - intros Hs. destruct Hnot as (w' & Hrun & Hst & _); [congruence|]. eauto.
  - intros Hs Hh.
    unfold resumeTraining, mbind, M_bind, bind, retrieveProject, read_trainingStatus.
    rewrite Hp. simpl. rewrite Hr. rewrite decide_False by (intros Hne; by apply Hne).
    rewrite Hh. eexists; split; [reflexivity|]. auto.
  - intros h r' x Hs Hh Hr' Hk.
    unfold resumeTraining, mbind, M_bind, bind, retrieveProject, read_trainingStatus,
      await_docker, updateState.
    rewrite Hp. simpl. rewrite Hr. rewrite decide_False by (intros Hne; by apply Hne).
    rewrite Hh. simpl. rewrite Hk. simpl. rewrite Hr'.
    eexists; split; [reflexivity|]. simpl. rewrite <- !app_assoc. auto.
Qed.

(** C10. For a project [id] of the store without a status record, where
    [id] is not a name under which the table finds something it inherits,
    [pauseTraining id] and [resumeTraining id] read the missing record
    before any of their rejection checks: whatever the handle, they settle
    with the TypeError of that read and not with "no trainjob found",
    "training is already paused" or "training is not paused", having called
    nothing but the store.  [halt id] with a handle kills the container
    first and then fails with a TypeError writing to the missing record of
    the project's own id, when that is no inherited name either.  With
    records under [id] and under the project's own id, none of the three
    settles with that error. *)
Theorem status_record_missing id p w :
  database w !! id = Some p →
  (status w !! id = None →
   inherited id = false →
     (∃ w', pauseTraining docker id w = (Thrown TypeError, w')
            ∧ status w' = status w ∧ ext w' = ext w
            ∧ history w' = history w ++ [EvCall (DbRetrieveProject id) None])
     ∧ (∃ w', resumeTraining docker id w = (Thrown TypeError, w')
              ∧ status w' = status w ∧ ext w' = ext w
              ∧ history w' = history w ++ [EvCall (DbRetrieveProject id) None]))
  ∧ (∀ h x,
       status w !! ProjectData.id p = None →
       inherited (ProjectData.id p) = false →
       train (ProjectData.containerIDs p) = Some h →
       truthy_handle (Some h) = true →
       Docker.killContainer docker h (ext w) = (Done (), x) →
       ∃ w', halt docker id w = (Thrown TypeError, w')
             ∧ status w' = status w ∧ ext w' = x
             ∧ history w' = history w ++
                 [ EvCall (DbRetrieveProject id) None;
                   EvCall (DockerKillContainer h) None ])
  ∧ (is_Some (status w !! id) →
     is_Some (status w !! ProjectData.id p) →
     (pauseTraining docker id w).1 ≠ Thrown TypeError
     ∧ (resumeTraining docker id w).1 ≠ Thrown TypeError
     ∧ (halt docker id w).1 ≠ Thrown TypeError).
Proof.
  intros Hp. split; [|split].
  - intros Hn Hi. split.
    + unfold pauseTraining, mbind, M_bind, bind, retrieveProject, read_trainingStatus,
        missing.
      rewrite Hp. simpl. rewrite Hn, Hi. eexists; split; [reflexivity|]. auto.
    + unfold resumeTraining, mbind, M_bind, bind, retrieveProject, read_trainingStatus,
        missing.
      rewrite Hp. simpl. rewrite Hn, Hi. eexists; split; [reflexivity|]. auto.
  - intros h x Hn Hi Hh Ht Hk.
    unfold halt, mbind, M_bind, bind, retrieveProject, await_docker, updateState, missing.
    rewrite Hp, Hh, Ht. simpl. rewrite Hk. simpl. rewrite Hn, Hi.
    eexists; split; [reflexivity|]. simpl. rewrite <- !app_assoc. auto.
  - intros [r Hr] [r' Hr'].
    unfold pauseTraining, resumeTraining, halt, mbind, M_bind, bind, retrieveProject,
      read_trainingStatus, await_docker, updateState, throw.
    rewrite Hp. simpl. rewrite Hr.
    repeat split.
    + destruct (decide (trainingStatus r = PAUSED)); [done|].
      destruct (train (ProjectData.containerIDs p)) as [h|]; [|done]. simpl.
      destruct (Docker.pauseContainer docker h (ext w)) as [[[]|msg] x]; simpl;
        [by rewrite Hr'|done].
    + destruct (decide (trainingStatus r ≠ PAUSED)); [done|].
      destruct (train (ProjectData.containerIDs p)) as [h|]; [|done]. simpl.
      destruct (Docker.resumeContainer docker h (ext w)) as [[[]|msg] x]; simpl;
        [by rewrite Hr'|done].
    + destruct (train (ProjectData.containerIDs p)) as [h|]; [|done].
      destruct (String.eqb h ""); simpl; [done|].
      destruct (Docker.killContainer docker h (ext w)) as [[[]|msg] x]; simpl;
        [by rewrite Hr'|done].
Qed.
End Control.

(** ** The training pipeline *)

Section Training.
Context {Ext Export Test : Type} (docker : Docker.t Ext) (trainer : Trainer.t Ext).
Implicit Types (w : @World Ext Export Test) (p : ProjectData.t).
Implicit Types (id h : string) (r : ProjectStatus).

Lemma start_resolved (iproject : Project.t) w (s : string) w' :
  start trainer iproject w = (Resolved s, w') →
  ∃ project r0,
    database w !! Project.id iproject = Some project
    ∧ status w !! ProjectData.id project = Some r0
    ∧ s = "training complete"
    ∧ history w' = history w ++ start_history (Project.id iproject) project
    ∧ database w' !! ProjectData.id project = Some (set_train None project)
    ∧ status w' =
        <[ProjectData.id project :=
            {| trainingStatus := NOT_TRAINING; currentEpoch := 0;
               lastEpoch := epochs (ProjectData.hyperparameters project) |}]> (status w).
Proof.
  unfold start. intros H.
  apply bind_resolved in H as (project & w1 & H1 & H).
  apply retrieveProject_resolved in H1 as [Hp ->].
  apply bind_resolved in H as ([] & w2 & H2 & H).
  apply updateLastStep_resolved in H2 as (r0 & Hr0 & ->).
  apply bind_resolved in H as ([] & w3 & H3 & H).
  apply updateState_resolved in H3 as (r1 & Hr1 & ->).
  apply bind_resolved in H as ([] & w4 & H4 & H).
  apply await_stage_resolved in H4 as (d4 & x4 & _ & ->).
  apply bind_resolved in H as ([] & w5 & H5 & H).
  apply await_stage_resolved in H5 as (d5 & x5 & _ & ->).
  apply bind_resolved in H as ([] & w6 & H6 & H).
  apply await_stage_resolved in H6 as (d6 & x6 & _ & ->).
  apply bind_resolved in H as ([] & w7 & H7 & H).
  apply await_stage_resolved in H7 as (d7 & x7 & _ & ->).
  apply bind_resolved in H as ([] & w8 & H8 & H).
  apply updateState_resolved in H8 as (r2 & Hr2 & ->).
  apply bind_resolved in H as ([] & w9 & H9 & H).
  apply updateStep_resolved in H9 as (r3 & Hr3 & ->).
  apply bind_resolved in H as ([] & w10 & H10 & H).
  apply await_stage_resolved in H10 as (d10 & x10 & _ & ->).
  apply bind_resolved in H as (step & w11 & H11 & H).
  apply await_stage_resolved in H11 as (d11 & x11 & _ & ->).
  apply bind_resolved in H as ([] & w12 & H12 & H).
  apply updateState_resolved in H12 as (r4 & Hr4 & ->).
  apply bind_resolved in H as ([] & w13 & H13 & H).
  unfold pushProject in H13. injection H13 as <-.
  apply mret_resolved in H as [-> ->].
  simpl in *.
  rewrite lookup_insert_eq in Hr1. injection Hr1 as <-.
  rewrite lookup_insert_eq in Hr2. injection Hr2 as <-.
  rewrite lookup_insert_eq in Hr3. injection Hr3 as <-.
  rewrite lookup_insert_eq in Hr4. injection Hr4 as <-.
  exists project, r0. repeat split; [done|done| | |].
  - rewrite <- !app_assoc. reflexivity.
  - apply lookup_insert_eq.
  - rewrite !insert_insert_eq. reflexivity.
Qed.


Local Ltac stage_resolves Hrel project :=
  match goal with
  | |- context [(await_stage ?c ?f ≫= ?k) ?w] =>
      let a := fresh "a" in
      let w1 := fresh "w" in
      let E := fresh "E" in
      let S := fresh "S" in
      destruct (await_stage_done c f w) as (a & w1 & E & S);
      [ destruct (Hrel (ProjectData.id project)) as (H1 & H2 & H3 & H4 & H5 & H6);
        first [apply H1 | apply H2 | apply H3 | apply H4 | apply H5 | apply H6]
      | ]; rewrite (bind_step _ k w a w1 E); simpl in S
  end.

(** With a trainer whose steps do not fail, [start] resolves for every
    project of the store that has a status record. *)
Lemma start_resolves (iproject : Project.t) (project : ProjectData.t) r0 w :
  reliable_trainer trainer →
  database w !! Project.id iproject = Some project →
  status w !! ProjectData.id project = Some r0 →
  ∃ w', start trainer iproject w = (Resolved "training complete", w').
Proof.
  intros Hrel Hp Hr0. unfold start.
  erewrite bind_step by (unfold retrieveProject; by rewrite Hp).
  erewrite bind_step by (unfold updateLastStep; simpl; by rewrite Hr0).
  erewrite bind_step
    by (unfold updateState; simpl; by rewrite lookup_insert_eq).
  do 4 stage_resolves Hrel project.
  erewrite bind_step
    by (unfold updateState; rewrite S2, S1, S0, S; by rewrite lookup_insert_eq).
  erewrite bind_step by (unfold updateStep; simpl; by rewrite lookup_insert_eq).
  do 2 stage_resolves Hrel project.
  erewrite bind_step
    by (unfold updateState; rewrite S4, S3; by rewrite lookup_insert_eq).
  erewrite bind_step by reflexivity.
  by eexists.
Qed.

(** C2. For a project of the store, a run of [start] that resolves has
    written [PREPARING], [TRAINING] and [NOT_TRAINING] to the project's
    status record, in that order and nothing else, so that a record that
    was [NOT_TRAINING] has gone NOT_TRAINING, PREPARING, TRAINING,
    NOT_TRAINING; [currentEpoch] is set to 0 right after the write of
    [TRAINING], before the training container is awaited; the record
    pushed to the store is the fetched one with [containerIDs.train]
    cleared; and the run returns "training complete". *)
Theorem start_lifecycle (iproject : Project.t) w (s : string) w' :
  start trainer iproject w = (Resolved s, w') →
  ∃ project r0 evs,
    let ID := ProjectData.id project in
    database w !! Project.id iproject = Some project
    ∧ status w !! ID = Some r0
    ∧ history w' = history w ++ evs
    ∧ evs = start_history (Project.id iproject) project
    ∧ statuses_written ID evs = [PREPARING; TRAINING; NOT_TRAINING]
    ∧ (trainingStatus r0 = NOT_TRAINING →
         statuses_observed ID (trainingStatus r0) evs =
           [NOT_TRAINING; PREPARING; TRAINING; NOT_TRAINING])
    ∧ (∃ before after,
         evs = before ++ [EvTrainingStatus ID TRAINING; EvCurrentEpoch ID 0] ++
                 EvCall (TrainerTrainModel ID) None :: after
         ∧ statuses_written ID before = [PREPARING])
    ∧ (∃ before, evs = before ++ [EvCall (DbPushProject (set_train None project)) None])
    ∧ train (ProjectData.containerIDs (set_train None project)) = None
    ∧ database w' !! ID = Some (set_train None project)
    ∧ status w' !! ID =
        Some {| trainingStatus := NOT_TRAINING; currentEpoch := 0;
                lastEpoch := epochs (ProjectData.hyperparameters project) |}
    ∧ s = "training complete".
Proof.
  intros H.
  apply start_resolved in H as (project & r0 & Hp & Hr0 & -> & Hh & Hd & Hs).
  set (evs := @start_history Export Test (Project.id iproject) project) in *.
  exists project, r0, evs.
  assert (Hw : statuses_written (ProjectData.id project) evs
               = [PREPARING; TRAINING; NOT_TRAINING]).
  { subst evs. unfold start_history. simpl. by rewrite !decide_True. }
  simpl. repeat split; try done.
  - intros ->. unfold statuses_observed. by rewrite Hw.
  - exists (take 7 evs), (drop 10 evs).
    split; [reflexivity|]. simpl. by rewrite !decide_True.
  - by exists (take 12 evs).
  - rewrite Hs. apply lookup_insert_eq.
Qed.

(** *** The handle and the status under the operations *)









(** *** Checkpoint polling *)

Lemma updateCheckpoints_polled id w o d x :
  Trainer.updateCheckpoints trainer id (database w, ext w) = (o, (d, x)) →
  status (updateCheckpoints trainer id w).2 = polled id o (status w)
  ∧ database (updateCheckpoints trainer id w).2 = d
  ∧ ext (updateCheckpoints trainer id w).2 = x.
Proof.
  intros Ho. unfold updateCheckpoints, mbind, M_bind, bind, await_stage, updateStep.
  rewrite Ho. destruct o as [[n|]|msg]; simpl; try done.
  destruct (Z.eqb n 0); simpl; [done|].
  by destruct (status w !! id).
Qed.

Lemma polled_twice id o st : polled id o (polled id o st) = polled id o st.
Proof.
  destruct o as [[n|]|msg]; simpl; try done.
  destruct (Z.eqb n 0); simpl; [done|].
  destruct (st !! id) as [r|] eqn:Hr; [|by rewrite Hr].
  by rewrite lookup_insert_eq, insert_insert_eq.
Qed.

Lemma polled_without_step id o st : reports_step o = false → polled id o st = st.
Proof.
  destruct o as [[n|]|msg]; simpl; try done. by intros ->.
Qed.

(** C8. When a second [updateCheckpoints id] gets from the trainer the
    report the first one got, or no step at all (no checkpoint was completed
    in between), it leaves the status table, and so [currentEpoch], as the
    first call left it. *)
Theorem updateCheckpoints_idempotent id w :
  let w1 := (updateCheckpoints trainer id w).2 in
  let w2 := (updateCheckpoints trainer id w1).2 in
  let first := (Trainer.updateCheckpoints trainer id (database w, ext w)).1 in
  let second := (Trainer.updateCheckpoints trainer id (database w1, ext w1)).1 in
  second = first ∨ reports_step second = false →
  status w2 = status w1
  ∧ currentEpoch <$> status w2 !! id = currentEpoch <$> status w1 !! id.
Proof.
  intros w1 w2 first second Hsame.
  assert (Hst : status w2 = status w1); [|by rewrite Hst].
  subst w2 first second.
  destruct (Trainer.updateCheckpoints trainer id (database w, ext w))
    as [o1 [d1 x1]] eqn:H1.
  destruct (Trainer.updateCheckpoints trainer id (database w1, ext w1))
    as [o2 [d2 x2]] eqn:H2.
  destruct (updateCheckpoints_polled id w o1 d1 x1 H1) as (Hs1 & _ & _).
  destruct (updateCheckpoints_polled id w1 o2 d2 x2 H2) as (Hs2 & _ & _).
  rewrite Hs2. simpl in Hsame. destruct Hsame as [->|Hnone].
  - subst w1. rewrite Hs1. apply polled_twice.
  - by apply polled_without_step.
Qed.
End Training.

(** ** Boot *)

Section Boot.
Context {Ext Export Test : Type} (docker : Docker.t Ext).
Implicit Types (w : @World Ext Export Test).

Lemma boot_steps_app (h1 h2 : list (Event Export Test)) :
  boot_steps (h1 ++ h2) = boot_steps h1 ++ boot_steps h2.
Proof.
  induction h1 as [|e h1 IH]; [done|].
  destruct e as [| | | | |c f]; simpl; rewrite ?IH; try done.
  by destruct c.
Qed.

(** Seeding the status table is no step of the readiness machine, asks
    nothing of the runtime and cannot fail. *)
Lemma forEach_addStatus (l : list ProjectData.t) w :
  ∃ w' hs, forEach l addStatus w = (Resolved (), w')
           ∧ trainer_state w' = trainer_state w
           ∧ ext w' = ext w
           ∧ database w' = database w
           ∧ history w' = history w ++ hs
           ∧ boot_steps hs = [].
Proof.
  revert w. induction l as [|p l IH]; intros w.
  - exists w, []. by rewrite app_nil_r.
  - simpl. unfold mbind, M_bind, bind. simpl.
    edestruct IH as (w' & hs & -> & Hts & Hx & Hd & Hh & Hb).
    exists w', (EvAddStatus (ProjectData.id p)
                 {| trainingStatus := NOT_TRAINING; currentEpoch := 0;
                    lastEpoch := epochs (ProjectData.hyperparameters p) |} :: hs).
    rewrite Hts, Hx, Hd, Hh. simpl. rewrite <- app_assoc. done.
Qed.

Lemma readiness_order_consecutive i s s' :
  readiness_order !! i = Some s →
  readiness_order !! S i = Some s' →
  TrainerState_value s' = TrainerState_value s + 1.
Proof.
  do 8 (destruct i as [|i]; [by intros [= <-] [= <-]|]). done.
Qed.

Lemma boot_script_pull_after_entry i image :
  boot_script !! i = Some (Pull image) →
  ∃ j s, i = S j ∧ boot_script !! j = Some (Enter s) ∧ image_of_state s = Some image.
Proof.
  do 12 (destruct i as [|i]; [intros [= <-] || (intros [=]); eauto|]). done.
Qed.

Local Ltac boot_leaf Hh Hb :=
  simpl; rewrite Hh, !boot_steps_app; simpl; rewrite Hb; simpl;
  unfold boot_script, readiness_order;
  repeat split; try done; try (by eexists);
  try (eexists; split; [reflexivity|]; split; [by vm_compute|reflexivity]).

(** C3. The service is constructed in [SCANNING_FOR_DOCKER].  When the
    runtime answers the liveness probe, [prepare] enters
    [SCANNING_PROJECTS] and then runs the boot script (each pulling state
    followed at once by the awaited pull of its image: dataset, metrics,
    train, export, test, then READY) as far as the pulls resolve: when all
    five resolve it resolves, having run the whole script, and the service
    is [READY]; when one fails it is rejected with that failure, having run
    the script up to and including that pull, and the service stays in the
    pulling state of that image.  Either way the states entered follow the
    order of the enumeration one by one, none skipped, none twice, never
    backward, and the state the service is left in is the last one entered.
    When the probe returns false, [prepare] resolves at once: the only
    state entered is [NO_DOCKER_INSTALLED], the one state of the
    enumeration below the state the service was constructed in, and no
    image is pulled. *)
Theorem prepare_readiness (d : Database) (x : Ext) :
  let w0 : @World Ext Export Test := constructed d x in
  let booted := prepare docker w0 in
  let steps := boot_steps (history booted.2) in
  trainer_state w0 = SCANNING_FOR_DOCKER
  ∧ (if (Docker.testDaemon docker x).1 then
       steps `prefix_of` boot_script
       ∧ (SCANNING_FOR_DOCKER :: states_entered steps) `prefix_of` readiness_order
       ∧ last (SCANNING_FOR_DOCKER :: states_entered steps) = Some (trainer_state booted.2)
       ∧ (booted.1 = Resolved () ↔ steps = boot_script)
       ∧ (booted.1 = Resolved () → trainer_state booted.2 = READY)
       ∧ match first_failure (boot_pulls (Export:=Export) (Test:=Test) docker)
                 (Docker.testDaemon docker x).2 with
         | None =>
             booted.1 = Resolved ()
             ∧ steps = boot_script
             ∧ trainer_state booted.2 = READY
         | Some (c, msg) =>
             booted.1 = Thrown (Failure msg)
             ∧ ∃ image, c = DockerPull image
                        ∧ steps = through (Pull image) boot_script
                        ∧ image_of_state (trainer_state booted.2) = Some image
         end
     else
       booted.1 = Resolved ()
       ∧ trainer_state booted.2 = NO_DOCKER_INSTALLED
       ∧ steps = [Enter NO_DOCKER_INSTALLED]
       ∧ images_pulled steps = []
       ∧ TrainerState_value (trainer_state booted.2) < TrainerState_value (trainer_state w0))
  ∧ (∀ i s s', readiness_order !! i = Some s → readiness_order !! S i = Some s' →
       TrainerState_value s' = TrainerState_value s + 1)
  ∧ (∀ i image, boot_script !! i = Some (Pull image) →
       ∃ j s, i = S j ∧ boot_script !! j = Some (Enter s)
              ∧ image_of_state s = Some image).
Proof.
  intros w0 booted steps. split; [done|].
  split; [|split; [apply readiness_order_consecutive|apply boot_script_pull_after_entry]].
  subst steps. destruct booted as [r w'] eqn:H. subst booted w0. simpl.
  revert H. unfold prepare, mbind, M_bind, bind, testDaemon, boot_pulls, first_failure.
  simpl.
  destruct (Docker.testDaemon docker x) as [[|] x0]; simpl; [|by intros [= <- <-]].
  destruct (forEach_addStatus (Object_values d)
    (log (EvCall DbRetrieveDatabase None)
       (log (EvTrainerState SCANNING_PROJECTS)
          (with_trainer_state SCANNING_PROJECTS
             (log (EvCall DockerTestDaemon None)
                (with_ext x0 (constructed d x : @World Ext Export Test)))))))
    as (w3 & hs & -> & _ & Hx & _ & Hh & Hb).
  simpl in Hx, Hh. unfold pull, await_docker, set_trainer_state. simpl. rewrite Hx.
  destruct (Docker.pull docker DATASET_IMAGE x0) as [[[]|m1] x1]; simpl.
  2: { intros [= <- <-]. boot_leaf Hh Hb. }
  destruct (Docker.pull docker METRICS_IMAGE x1) as [[[]|m2] x2]; simpl.
  2: { intros [= <- <-]. boot_leaf Hh Hb. }
  destruct (Docker.pull docker TRAIN_IMAGE x2) as [[[]|m3] x3]; simpl.
  2: { intros [= <- <-]. boot_leaf Hh Hb. }
  destruct (Docker.pull docker EXPORT_IMAGE x3) as [[[]|m4] x4]; simpl.
  2: { intros [= <- <-]. boot_leaf Hh Hb. }
  destruct (Docker.pull docker TEST_IMAGE x4) as [[[]|m5] x5]; simpl.
  2: { intros [= <- <-]. boot_leaf Hh Hb. }
  intros [= <- <-]. boot_leaf Hh Hb.
Qed.
End Boot.


(** ** The export and test pipelines *)

Section Pipelines.
Context {Ext Export Test : Type}.
Context (exporter : Exporter.t Ext Export) (tester : Tester.t Ext Test).
Implicit Types (w : @World Ext Export Test).

Lemma in_use_app id n mark (h1 h2 : list (Event Export Test)) :
  in_use id n mark (h1 ++ h2) = in_use id n (in_use id n mark h1) h2.
Proof.
  revert mark. induction h1 as [|e h1 IH]; intros mark; [done|].
  destruct e as [| | | | |c f]; simpl; try apply IH.
  destruct c; try apply IH. destruct f; [apply IH|].
  case_decide; apply IH.
Qed.

Lemma keeps_status_bind {A B} (m : M A) (k : A → M B) :
  keeps_status m → (∀ a, keeps_status (k a)) → keeps_status (m ≫= k : @M Ext Export Test B).
Proof.
  intros Hm Hk w. unfold mbind, M_bind, bind.
  specialize (Hm w). destruct (m w) as [[a|e] w1]; simpl in *; [|done].
  by rewrite Hk.
Qed.

Lemma keeps_status_mret {A} (a : A) : keeps_status (mret a : @M Ext Export Test A).
Proof. by intros w. Qed.

Lemma keeps_status_await_stage {A} c (f : Eff (Database * Ext) A) :
  keeps_status (await_stage c f : @M Ext Export Test A).
Proof. intros w. apply await_stage_status. Qed.

Lemma keeps_status_retrieveProject id :
  keeps_status (retrieveProject id : @M Ext Export Test ProjectData.t).
Proof. intros w. unfold retrieveProject. by destruct (database w !! id). Qed.

(** C9. Whatever its arguments and however it settles, [test] leaves the
    training-status table exactly as it found it: no record is created,
    removed or changed. *)
Theorem test_keeps_status_table (testName projectID exportID videoID : string) w :
  status (test tester testName projectID exportID videoID w).2 = status w.
Proof.
  revert w. change (keeps_status (test (Export:=Export) tester testName projectID exportID videoID)).
  unfold test.
  repeat first
    [ apply keeps_status_bind; [|intros ?]
    | apply keeps_status_await_stage
    | apply keeps_status_retrieveProject
    | apply keeps_status_mret ].
Qed.

Local Ltac split_at pre H :=
  repeat (destruct pre as [|? pre]; simplify_eq/=).

Local Ltac among H :=
  simpl in H; rewrite ?elem_of_cons, ?elem_of_nil in H;
  repeat (destruct H as [H|H]; simplify_eq/=); try done.

Local Ltac export_leaf id n :=
  intros [= <- <-]; eexists; split;
  [ simpl; rewrite <- ?app_assoc; simpl; reflexivity
  | split; [|split; [|split]];
    [ intros pre f post Heq; split_at pre Heq; find_elem
    | intros pre f post Heq; split_at pre Heq; eexists; find_elem
    | intros c e Hc Hin; among Hin;
      repeat split; try done;
      first [ intros f Hin; by among Hin
            | intros mark; simpl; rewrite !in_use_app; simpl; by rewrite ?decide_True ]
    | first [ done
            | intros s [= <-]; split; [done|];
              intros mark; simpl; rewrite !in_use_app; simpl; by rewrite ?decide_True ] ] ].

(** C7. In every run of [export id checkpointNumber name]: the conversion
    container is run only after the call that marks the checkpoint in use
    has resolved; the mark is cleared only after the export record has been
    saved; and when a step inside the bracket (writing the parameter file,
    running the container, saving the export) fails, [export] is rejected
    with that step's error, the clearing call is never made, and the
    checkpoint is left marked in use.  A run that resolves returns
    "exported" and leaves the mark cleared. *)
Theorem export_in_use_bracket id (checkpointNumber : Z) (name : string) w
    (r : result string) w' :
  export exporter id checkpointNumber name w = (r, w') →
  ∃ evs,
    history w' = history w ++ evs
    ∧ (∀ pre f post,
         evs = pre ++ EvCall (ExporterExportCheckpoint id) f :: post →
         EvCall (ExporterUpdateCheckpointStatus id checkpointNumber true) None ∈ pre)
    ∧ (∀ pre f post,
         evs = pre ++ EvCall (ExporterUpdateCheckpointStatus id checkpointNumber false) f :: post →
         ∃ exp, EvCall (ExporterSaveExport id exp checkpointNumber) None ∈ pre)
    ∧ (∀ c e,
         inside_bracket c = true →
         EvCall c (Some e) ∈ evs →
         r = Thrown e
         ∧ (∀ f, EvCall (ExporterUpdateCheckpointStatus id checkpointNumber false) f ∉ evs)
         ∧ (∀ mark, in_use id checkpointNumber mark (history w') = true))
    ∧ (∀ s, r = Resolved s →
         s = "exported" ∧ ∀ mark, in_use id checkpointNumber mark (history w') = false).
Proof.
  unfold export, mbind, M_bind, bind, await_stage, mret, M_ret, ret. simpl.
  destruct (Exporter.locateCheckpoint exporter id checkpointNumber (database w, ext w))
    as [[[]|m1] [d1 x1]]; simpl; [|export_leaf id checkpointNumber].
  destruct (Exporter.createExport exporter id name (d1, x1))
    as [[exp|m2] [d2 x2]]; simpl; [|export_leaf id checkpointNumber].
  destruct (Exporter.createDestinationDirectory exporter exp (d2, x2))
    as [[[]|m3] [d3 x3]]; simpl; [|export_leaf id checkpointNumber].
  destruct (Exporter.updateCheckpointStatus exporter id checkpointNumber true (d3, x3))
    as [[[]|m4] [d4 x4]]; simpl; [|export_leaf id checkpointNumber].
  destruct (Exporter.writeParameterFile exporter id checkpointNumber exp (d4, x4))
    as [[[]|m5] [d5 x5]]; simpl; [|export_leaf id checkpointNumber].
  destruct (Exporter.exportCheckpoint exporter id (d5, x5))
    as [[[]|m6] [d6 x6]]; simpl; [|export_leaf id checkpointNumber].
  destruct (Exporter.saveExport exporter id exp checkpointNumber (d6, x6))
    as [[[]|m7] [d7 x7]]; simpl; [|export_leaf id checkpointNumber].
  destruct (Exporter.updateCheckpointStatus exporter id checkpointNumber false (d7, x7))
    as [[[]|m8] [d8 x8]]; simpl; export_leaf id checkpointNumber.
Qed.
End Pipelines.


(** ** Runs of the sample service *)

(** The sample service, run. *)
Example boot_with_runtime :
  let booted :=
    prepare Sample.docker
      (constructed {[ "p" := Sample.project None ]} () : @World unit string string) in
  booted.1 = Resolved ()
  ∧ trainer_state booted.2 = READY
  ∧ status booted.2 !! "p" = Some (Sample.record NOT_TRAINING 0)
  ∧ boot_steps (history booted.2) = boot_script.
Proof. by vm_compute. Qed.

Example boot_without_runtime :
  let booted :=
    prepare Sample.no_docker
      (constructed {[ "p" := Sample.project None ]} () : @World unit string string) in
  booted.1 = Resolved ()
  ∧ trainer_state booted.2 = NO_DOCKER_INSTALLED
  ∧ status booted.2 = ∅
  ∧ history booted.2
      = [ EvCall DockerTestDaemon None; EvTrainerState NO_DOCKER_INSTALLED ].
Proof. by vm_compute. Qed.

Example start_on_idle :
  let run := start Sample.trainer {| Project.id := "p" |} Sample.idle in
  run.1 = Resolved "training complete"
  ∧ status run.2 !! "p" = Some (Sample.record NOT_TRAINING 0)
  ∧ database run.2 !! "p" = Some (Sample.project None)
  ∧ statuses_written "p" (history run.2) = [PREPARING; TRAINING; NOT_TRAINING].
Proof. by vm_compute. Qed.

Example start_without_record :
  (start Sample.trainer {| Project.id := "p" |} Sample.unseen).1 = Thrown TypeError.
Proof. by vm_compute. Qed.

Example poll_advances_epoch :
  status (updateCheckpoints Sample.trainer "p" Sample.training).2 !! "p"
    = Some (Sample.record TRAINING 7).
Proof. by vm_compute. Qed.

Example export_resolves :
  let run := export Sample.exporter "p" 4 "model" Sample.idle in
  run.1 = Resolved "exported"
  ∧ in_use "p" 4 false (history run.2) = false
  ∧ history run.2
      = [ EvCall (ExporterLocateCheckpoint "p" 4) None;
          EvCall (ExporterCreateExport "p" "model") None;
          EvCall (ExporterCreateDestinationDirectory "model") None;
          EvCall (ExporterUpdateCheckpointStatus "p" 4 true) None;
          EvCall (ExporterWriteParameterFile "p" 4 "model") None;
          EvCall (ExporterExportCheckpoint "p") None;
          EvCall (ExporterSaveExport "p" "model" 4) None;
          EvCall (ExporterUpdateCheckpointStatus "p" 4 false) None ].
Proof. by vm_compute. Qed.

Example export_container_fails :
  history (export Sample.failing_exporter "p" 4 "model" Sample.idle).2
    = [ EvCall (ExporterLocateCheckpoint "p" 4) None;
        EvCall (ExporterCreateExport "p" "model") None;
        EvCall (ExporterCreateDestinationDirectory "model") None;
        EvCall (ExporterUpdateCheckpointStatus "p" 4 true) None;
        EvCall (ExporterWriteParameterFile "p" 4 "model") None;
        EvCall (ExporterExportCheckpoint "p") (Some (Failure "container exited")) ].
Proof. by vm_compute. Qed.

Example test_on_training :
  let run := test Sample.tester "t" "p" "model" "video" Sample.training in
  run.1 = Resolved "testing complete" ∧ status run.2 = status Sample.training.
Proof. by vm_compute. Qed.

Example halt_twice :
  (halt Sample.docker "p" (halt Sample.docker "p" Sample.training).2).1 = Resolved ().
Proof. by vm_compute. Qed.



Lemma two_projects_well_keyed : well_keyed Faulty.store.
Proof.
  intros k p. unfold Faulty.store.
  rewrite lookup_insert_Some, lookup_singleton_Some.
  by intros [[<- <-]|[_ [<- <-]]].
Qed.

(** A boot with a runtime that answers and cannot pull the metrics image:
    [prepare] is rejected and the service stays in [METRICS_PULL]. *)
Example boot_with_failed_pull :
  let booted :=
    prepare Faulty.offline
      (constructed {[ "p" := Sample.project None ]} () : @World unit string string) in
  booted.1 = Thrown (Failure "pull failed")
  ∧ trainer_state booted.2 = METRICS_PULL
  ∧ boot_steps (history booted.2)
    = [ Enter SCANNING_PROJECTS; Enter DATASET_PULL; Pull DATASET_IMAGE;
        Enter METRICS_PULL; Pull METRICS_IMAGE ]
  ∧ status booted.2 !! "p" = Some (Sample.record NOT_TRAINING 0).
Proof. by vm_compute. Qed.





(** A run of [start] on the idle project. *)
Lemma start_lifecycle_witness :
  ∃ project r0 evs,
    database Sample.idle !! "p" = Some project
    ∧ status Sample.idle !! ProjectData.id project = Some r0
    ∧ history (start Sample.trainer {| Project.id := "p" |} Sample.idle).2 = [] ++ evs
    ∧ statuses_observed (ProjectData.id project) (trainingStatus r0) evs
        = [NOT_TRAINING; PREPARING; TRAINING; NOT_TRAINING]
    ∧ database (start Sample.trainer {| Project.id := "p" |} Sample.idle).2
        !! ProjectData.id project = Some (set_train None project).
Proof.
  destruct (start_lifecycle Sample.trainer {| Project.id := "p" |} Sample.idle
              "training complete"
              (start Sample.trainer {| Project.id := "p" |} Sample.idle).2)
    as (project & r0 & evs & Hp & Hr & Hh & He & _ & Hobs & _ & _ & _ & Hd & _).
  { by vm_compute. }
  exists project, r0, evs. repeat split; try done.
  apply Hobs. simpl in Hp, Hr. rewrite lookup_singleton_Some in Hp.
  destruct Hp as [_ <-]. simpl in Hr. rewrite lookup_singleton_Some in Hr.
  by destruct Hr as [_ <-].
Defined.

(** [halt] on the idle project and on the training one. *)
Lemma halt_kills_or_rejects_witness :
  (halt Sample.docker "p" Sample.idle).1 = Thrown (Rejected "no trainjob found")
  ∧ (halt Sample.docker "p" Sample.training).1 = Resolved ()
  ∧ status (halt Sample.docker "p" Sample.training).2 !! "p"
      = Some (Sample.record NOT_TRAINING 3)
  ∧ history (halt Sample.docker "p" Sample.training).2
      = [ EvCall (DbRetrieveProject "p") None;
          EvCall (DockerKillContainer "c1") None;
          EvTrainingStatus "p" NOT_TRAINING ].
Proof.
  destruct (halt_kills_or_rejects Sample.docker "p" (Sample.project None) Sample.idle eq_refl)
    as [Hnone _].
  destruct (Hnone eq_refl) as (w1 & -> & _).
  destruct (halt_kills_or_rejects Sample.docker "p" (Sample.project (Some "c1"))
              Sample.training eq_refl) as [_ Hsome].
  destruct (Hsome "c1" (Sample.record TRAINING 3) () eq_refl eq_refl eq_refl eq_refl)
    as (w2 & -> & Hs & _ & _ & Hh).
  simpl. rewrite Hs, Hh. repeat split; try apply lookup_insert_eq.
Defined.

(** [pauseTraining] on the paused, the idle and the training project. *)
Lemma pauseTraining_rejects_or_pauses_witness :
  (pauseTraining Sample.docker "p" Sample.paused).1
    = Thrown (Rejected "training is already paused")
  ∧ status (pauseTraining Sample.docker "p" Sample.paused).2 = status Sample.paused
  ∧ (pauseTraining Sample.docker "p" Sample.idle).1 = Thrown (Rejected "no trainjob found")
  ∧ status (pauseTraining Sample.docker "p" Sample.idle).2 = status Sample.idle
  ∧ (pauseTraining Sample.docker "p" Sample.training).1 = Resolved ()
  ∧ status (pauseTraining Sample.docker "p" Sample.training).2 !! "p"
      = Some (Sample.record PAUSED 3).
Proof.
  destruct (pauseTraining_rejects_or_pauses Sample.docker "p" (Sample.project (Some "c1"))
              (Sample.record PAUSED 3) Sample.paused eq_refl eq_refl) as (H1 & _ & _ & _).
  destruct (H1 eq_refl) as (w1 & -> & S1 & _).
  destruct (pauseTraining_rejects_or_pauses Sample.docker "p" (Sample.project None)
              (Sample.record NOT_TRAINING 0) Sample.idle eq_refl eq_refl) as (_ & H2 & _ & _).
  destruct H2 as (w2 & -> & S2 & _); [done|done|].
  destruct (pauseTraining_rejects_or_pauses Sample.docker "p" (Sample.project (Some "c1"))
              (Sample.record TRAINING 3) Sample.training eq_refl eq_refl) as (_ & _ & H3 & _).
  destruct (H3 "c1" (Sample.record TRAINING 3) ()) as (w3 & -> & S3 & _);
    [done|done|done|done|].
  simpl. rewrite S1, S2, S3. repeat split; try apply lookup_insert_eq.
Defined.

(** [resumeTraining] on the idle project, on a paused one without handle and
    on the paused one. *)
Lemma resumeTraining_rejects_or_resumes_witness :
  (resumeTraining Sample.docker "p" Sample.idle).1
    = Thrown (Rejected "training is not paused")
  ∧ (resumeTraining Sample.docker "p" Sample.orphaned).1
    = Thrown (Rejected "no trainjob found")
  ∧ (resumeTraining Sample.docker "p" Sample.paused).1 = Resolved ()
  ∧ status (resumeTraining Sample.docker "p" Sample.paused).2 !! "p"
      = Some (Sample.record TRAINING 3).
Proof.
  destruct (resumeTraining_rejects_or_resumes Sample.docker "p" (Sample.project None)
              (Sample.record NOT_TRAINING 0) Sample.idle eq_refl eq_refl) as (_ & H1 & _).
  destruct (H1 eq_refl) as (w1 & -> & _).
  destruct (resumeTraining_rejects_or_resumes Sample.docker "p" (Sample.project None)
              (Sample.record PAUSED 3) Sample.orphaned eq_refl eq_refl)
    as (_ & _ & H2 & _).
  destruct (H2 eq_refl eq_refl) as (w2 & -> & _).
  destruct (resumeTraining_rejects_or_resumes Sample.docker "p" (Sample.project (Some "c1"))
              (Sample.record PAUSED 3) Sample.paused eq_refl eq_refl) as (_ & _ & _ & H3).
  destruct (H3 "c1" (Sample.record PAUSED 3) ()) as (w3 & -> & Hs & _);
    [done|done|done|done|].
  simpl. rewrite Hs. repeat split; try apply lookup_insert_eq.
Defined.

(** The three controls on a project the status table has not seen. *)
Lemma status_record_missing_witness :
  (pauseTraining Sample.docker "p" Sample.unseen).1 = Thrown TypeError
  ∧ (resumeTraining Sample.docker "p" Sample.unseen).1 = Thrown TypeError
  ∧ (halt Sample.docker "p" Sample.unseen).1 = Thrown TypeError
  ∧ history (halt Sample.docker "p" Sample.unseen).2
      = [ EvCall (DbRetrieveProject "p") None; EvCall (DockerKillContainer "c1") None ]
  ∧ (pauseTraining Sample.docker "p" Sample.training).1 ≠ Thrown TypeError.
Proof.
  destruct (status_record_missing Sample.docker "p" (Sample.project (Some "c1"))
              Sample.unseen eq_refl) as (Hread & Hwrite & _).
  destruct (Hread eq_refl eq_refl) as [(w1 & -> & _) (w2 & -> & _)].
  destruct (Hwrite "c1" () eq_refl eq_refl eq_refl eq_refl eq_refl) as (w3 & -> & _ & _ & Hh).
  destruct (status_record_missing Sample.docker "p" (Sample.project (Some "c1"))
              Sample.training eq_refl) as (_ & _ & Hsafe).
  destruct Hsafe as (Hp & _ & _); [by eexists|by eexists|].
  simpl. rewrite Hh. repeat split. exact Hp.
Defined.

(** Two polls of the training project, both answered with step 7. *)
Lemma updateCheckpoints_idempotent_witness :
  currentEpoch <$>
    status (updateCheckpoints Sample.trainer "p"
              (updateCheckpoints Sample.trainer "p" Sample.training).2).2 !! "p"
  = currentEpoch <$> status (updateCheckpoints Sample.trainer "p" Sample.training).2 !! "p".
Proof.
  exact (proj2 (updateCheckpoints_idempotent Sample.trainer "p" Sample.training
                  (or_introl eq_refl))).
Defined.

(** An export whose conversion container fails. *)
Lemma export_in_use_bracket_witness :
  (export Sample.failing_exporter "p" 4 "model" Sample.idle).1
    = Thrown (Failure "container exited")
  ∧ in_use "p" 4 false
      (history (export Sample.failing_exporter "p" 4 "model" Sample.idle).2) = true.
Proof.
  destruct (export_in_use_bracket Sample.failing_exporter "p" 4 "model" Sample.idle
              (export Sample.failing_exporter "p" 4 "model" Sample.idle).1
              (export Sample.failing_exporter "p" 4 "model" Sample.idle).2)
    as (evs & Hh & _ & _ & Hfail & _).
  { by vm_compute. }
  destruct (Hfail (ExporterExportCheckpoint "p") (Failure "container exited") eq_refl)
    as (Hr & _ & Hmark).
  - vm_compute in Hh. subst evs. find_elem.
  - split; [exact Hr|apply Hmark].
Defined.


(** * More properties of the service *)

(** ** What boot leaves in the status table *)

Section Seeding.
Context {Ext Export Test : Type} (docker : Docker.t Ext) (trainer : Trainer.t Ext).
Implicit Types (w : @World Ext Export Test) (p : ProjectData.t).

Lemma forEach_addStatus_seeds (l : list ProjectData.t) w :
  ∃ w', forEach l addStatus w = (Resolved (), w')
        ∧ status w' = seed (status w) l
        ∧ database w' = database w
        ∧ ext w' = ext w
        ∧ trainer_state w' = trainer_state w.
Proof.
  revert w. induction l as [|p l IH]; intros w; [by exists w|].
  simpl. unfold mbind, M_bind, bind. simpl.
  edestruct IH as (w' & -> & Hs & Hd & Hx & Ht).
  exists w'. by rewrite Hs, Hd, Hx, Ht.
Qed.

Lemma seed_lookup (l : list (string * ProjectData.t)) (st : gmap string ProjectStatus) k :
  NoDup l.*1 →
  (∀ i p, (i, p) ∈ l → ProjectData.id p = i) →
  seed st l.*2 !! k =
    match (list_to_map l : Database) !! k with
    | Some p => Some (seeded p)
    | None => st !! k
    end.
Proof.
  revert st. induction l as [|[i p] l IH]; intros st Hnd Hkey; [done|].
  simpl in *. apply NoDup_cons in Hnd as [Hi Hnd].
  unfold seed in *. simpl. rewrite IH; [|done|by intros ???; apply Hkey; right].
  rewrite (Hkey i p) by left.
  destruct (decide (k = i)) as [->|Hne].
  - rewrite lookup_insert_eq. rewrite (not_elem_of_list_to_map_1 _ _ Hi).
    by rewrite lookup_insert_eq.
  - rewrite !lookup_insert_ne by done. done.
Qed.

Lemma seed_store (d : Database) k :
  well_keyed d → seed ∅ (Object_values d) !! k = seeded <$> d !! k.
Proof.
  intros Hk. unfold Object_values.
  rewrite seed_lookup.
  - rewrite list_to_map_to_list. by destruct (d !! k).
  - apply NoDup_fst_map_to_list.
  - intros i p Hin. apply Hk. by apply elem_of_map_to_list.
Qed.

Lemma keeps_status_set_trainer_state s :
  keeps_status (set_trainer_state s : @M Ext Export Test unit).
Proof. by intros w. Qed.

Lemma keeps_status_await_docker {A} c (f : Eff Ext A) :
  keeps_status (await_docker c f : @M Ext Export Test A).
Proof. intros w. unfold await_docker. by destruct (f (ext w)). Qed.

(** The whole of [prepare] after the projects have been scanned. *)
Lemma prepare_scanned (d : Database) (x x0 : Ext) :
  Docker.testDaemon docker x = (true, x0) →
  status (prepare docker (constructed d x : @World Ext Export Test)).2
    = seed ∅ (Object_values d)
  ∧ database (prepare docker (constructed d x : @World Ext Export Test)).2 = d.
Proof.
  intros Ht. unfold prepare.
  erewrite bind_step by (unfold testDaemon; simpl; rewrite Ht; reflexivity).
  simpl. erewrite bind_step by reflexivity. erewrite bind_step by reflexivity.
  match goal with
  | |- context [forEach ?l addStatus ≫= ?k] =>
      match goal with
      | |- context [(forEach l addStatus ≫= k) ?w] =>
          destruct (forEach_addStatus_seeds l w) as (w3 & Hf & Hs & Hd & _);
          rewrite (bind_step _ k w () w3 Hf)
      end
  end.
  simpl in Hs, Hd. rewrite <- Hs, <- Hd. clear.
  revert w3. unfold pull.
  assert (K : ∀ (m : @M Ext Export Test unit),
            keeps_status m → (∀ w, database (m w).2 = database w) →
            ∀ w3, status (m w3).2 = status w3 ∧ database (m w3).2 = database w3)
    by (intros m Hm1 Hm2 w3; split; [apply Hm1|apply Hm2]).
  apply K.
  - repeat first
      [ apply keeps_status_bind; [|intros ?]
      | apply keeps_status_set_trainer_state
      | apply keeps_status_await_docker ].
  - intros w. unfold mbind, M_bind, bind, set_trainer_state, await_docker. simpl.
    repeat (match goal with
            | |- context [Docker.pull docker ?i ?s] =>
                destruct (Docker.pull docker i s) as [[[]|?] ?]; simpl
            end); done.
Qed.
End Seeding.

(** ** Boot and the training pipeline, further *)

Section BootAndStart.
Context {Ext Export Test : Type} (docker : Docker.t Ext) (trainer : Trainer.t Ext).
Implicit Types (w : @World Ext Export Test) (p : ProjectData.t).

(** X1. Over a store keyed by project id, when the runtime answers the
    probe [prepare] leaves a status record for exactly the projects of the
    store, each [NOT_TRAINING] at epoch 0 with the project's epochs as
    [lastEpoch], whether or not the image pulls that follow succeed; when it
    does not answer, the status table stays empty and the store is not even
    read.  Boot never changes the store. *)
Theorem boot_seeds_status_table (d : Database) (x : Ext) :
  well_keyed d →
  let booted := (prepare docker (constructed d x : @World Ext Export Test)).2 in
  database booted = d
  ∧ (if (Docker.testDaemon docker x).1
     then ∀ k, status booted !! k = seeded <$> d !! k
     else status booted = ∅ ∧ calls (history booted) = [DockerTestDaemon]).
Proof.
  intros Hk booted. subst booted.
  destruct (Docker.testDaemon docker x) as [[|] x0] eqn:Ht; simpl.
  - destruct (prepare_scanned (Export:=Export) (Test:=Test) docker d x x0 Ht) as [Hs Hd].
    split; [done|]. intros k. rewrite Hs. by apply seed_store.
  - unfold prepare.
    erewrite bind_step by (unfold testDaemon; simpl; rewrite Ht; reflexivity).
    done.
Qed.

(** X2. After a boot over a store keyed by project id with a runtime that
    answers, [start] of any project of the store finds its status record:
    with a trainer whose steps resolve it runs to "training complete",
    whether or not boot reached [READY]. *)
Theorem boot_then_start (d : Database) (x : Ext) k p :
  (Docker.testDaemon docker x).1 = true →
  well_keyed d →
  d !! k = Some p →
  reliable_trainer trainer →
  ∃ w', start trainer {| Project.id := k |}
          (prepare docker (constructed d x : @World Ext Export Test)).2
        = (Resolved "training complete", w')
        ∧ status w' !! k = Some (seeded p)
        ∧ database w' !! k = Some (set_train None p).
Proof.
  intros Ht Hk Hp Hrel.
  destruct (Docker.testDaemon docker x) as [b x0] eqn:Hd. simpl in Ht. subst b.
  destruct (prepare_scanned (Export:=Export) (Test:=Test) docker d x x0 Hd) as [Hs Hdb].
  set (booted := (prepare docker (constructed d x : @World Ext Export Test)).2) in *.
  assert (Hid : ProjectData.id p = k) by (by apply Hk).
  destruct (start_resolves trainer {| Project.id := k |} p (seeded p) booted Hrel)
    as [w' Hrun].
  { simpl. by rewrite Hdb. }
  { rewrite Hs, Hid, seed_store, Hp by done. done. }
  exists w'. split; [done|].
  apply start_resolved in Hrun as (p' & r0 & Hp' & _ & _ & _ & Hd' & Hs').
  simpl in Hp'. rewrite Hdb, Hp in Hp'. injection Hp' as <-.
  rewrite Hid in Hd', Hs'. split; [|done].
  rewrite Hs'. apply lookup_insert_eq.
Qed.

(** X3. [start] resolves for every project of the store that has a status
    record, whatever that record says (a run already in progress is no
    obstacle), provided the trainer's steps resolve; the record is then
    [NOT_TRAINING] at epoch 0 and the run has made the steps of [start] in
    their order. *)
Theorem start_runs_to_completion (iproject : Project.t) (project : ProjectData.t)
    (r0 : ProjectStatus) w :
  reliable_trainer trainer →
  database w !! Project.id iproject = Some project →
  status w !! ProjectData.id project = Some r0 →
  ∃ w', start trainer iproject w = (Resolved "training complete", w')
        ∧ status w' = <[ProjectData.id project := seeded project]> (status w)
        ∧ history w' = history w ++ start_history (Project.id iproject) project.
Proof.
  intros Hrel Hp Hr0.
  destruct (start_resolves trainer iproject project r0 w Hrel Hp Hr0) as [w' Hrun].
  exists w'. split; [done|].
  apply start_resolved in Hrun as (p' & r' & Hp' & _ & _ & Hh & _ & Hs).
  rewrite Hp in Hp'. injection Hp' as <-. done.
Qed.

Local Ltac stuck_leaf :=
  intros [= <- <-]; eexists _, _;
  split; [reflexivity|];
  split; [simpl; rewrite <- ?app_assoc; simpl; reflexivity|];
  split; [reflexivity|];
  split; [reflexivity|];
  split; [reflexivity|];
  split; [simpl; rewrite ?lookup_insert_eq; reflexivity|];
  intros k Hk; simpl; by rewrite ?lookup_insert_ne.

(** X4. When a step of the trainer fails, the steps before it having
    resolved, [start] is rejected with that step's failure, asks nothing
    more of the trainer and repairs nothing: the project's record is left
    [PREPARING] if the failed step was one of the four preparation steps
    and [TRAINING] at epoch 0 if it was the training run or the checkpoint
    update, [lastEpoch] is the project's epochs, the other records are as
    they were, and the project is not pushed to the store, so its container
    handle is not cleared. *)
Theorem start_stops_at_failed_step (iproject : Project.t) (project : ProjectData.t)
    (r0 : ProjectStatus) w (c : Call Export Test) (msg : string) :
  database w !! Project.id iproject = Some project →
  status w !! ProjectData.id project = Some r0 →
  first_failure (trainer_steps trainer (ProjectData.id project)) (database w, ext w)
    = Some (c, msg) →
  ∃ w' evs,
    start trainer iproject w = (Thrown (Failure msg), w')
    ∧ history w' = history w ++ evs
    ∧ last evs = Some (EvCall c (Some (Failure msg)))
    ∧ is_trainer_call c = true
    ∧ pushed evs = []
    ∧ status w' !! ProjectData.id project
      = Some {| trainingStatus := if is_preparation c then PREPARING else TRAINING;
                currentEpoch := if is_preparation c then currentEpoch r0 else 0;
                lastEpoch := epochs (ProjectData.hyperparameters project) |}
    ∧ (∀ k, k ≠ ProjectData.id project → status w' !! k = status w !! k).
Proof.
  intros Hp Hr0.
  unfold start, mbind, M_bind, bind, retrieveProject, updateLastStep, updateState,
    updateStep, await_stage, pushProject, trainer_steps, first_failure, forget.
  rewrite Hp. simpl. rewrite Hr0. simpl.
  rewrite lookup_insert_eq. simpl.
  destruct (Trainer.writeParameterFile trainer (ProjectData.id project) (database w, ext w))
    as [[[]|m1] [d1 x1]]; simpl; [|stuck_leaf].
  destruct (Trainer.handleOldData trainer (ProjectData.id project) (d1, x1))
    as [[[]|m2] [d2 x2]]; simpl; [|stuck_leaf].
  destruct (Trainer.moveDataToMount trainer (ProjectData.id project) (d2, x2))
    as [[[]|m3] [d3 x3]]; simpl; [|stuck_leaf].
  destruct (Trainer.extractDataset trainer (ProjectData.id project) (d3, x3))
    as [[[]|m4] [d4 x4]]; simpl; [|stuck_leaf].
  rewrite lookup_insert_eq. simpl. rewrite lookup_insert_eq. simpl.
  destruct (Trainer.trainModel trainer (ProjectData.id project) (d4, x4))
    as [[[]|m5] [d5 x5]]; simpl; [|stuck_leaf].
  destruct (Trainer.updateCheckpoints trainer (ProjectData.id project) (d5, x5))
    as [[n|m6] [d6 x6]]; simpl; [done|stuck_leaf].
Qed.

(** X5. [start] of an id the store does not know is rejected by the lookup,
    and [start] of a project without a status record, whose id is no name
    under which the table finds something it inherits, fails with a
    TypeError on the first write to the missing record; either way nothing
    has been asked of the trainer and the status table, the store and the
    outside are as they were. *)
Theorem start_rejected_before_training (iproject : Project.t) w :
  (database w !! Project.id iproject = None →
     start trainer iproject w
     = (Thrown (NotFound (Project.id iproject)),
        log (EvCall (DbRetrieveProject (Project.id iproject))
               (Some (NotFound (Project.id iproject)))) w))
  ∧ (∀ project,
       database w !! Project.id iproject = Some project →
       status w !! ProjectData.id project = None →
       inherited (ProjectData.id project) = false →
       start trainer iproject w
       = (Thrown TypeError, log (EvCall (DbRetrieveProject (Project.id iproject)) None) w)).
Proof.
  split.
  - intros Hp. unfold start, mbind, M_bind, bind, retrieveProject. by rewrite Hp.
  - intros project Hp Hr Hi.
    unfold start, mbind, M_bind, bind, retrieveProject, updateLastStep, missing.
    rewrite Hp. simpl. by rewrite Hr, Hi.
Qed.
End BootAndStart.

(** ** Live container control, further *)

Section ControlFurther.
Context {Ext Export Test : Type} (docker : Docker.t Ext).
Implicit Types (w : @World Ext Export Test) (p : ProjectData.t).
Implicit Types (id h : string) (r : ProjectStatus).

(** X6. [halt], [pauseTraining] and [resumeTraining] of an id the store does
    not know are rejected by the lookup before anything else: nothing is
    asked of the runtime and no status record is read or written, even when
    the status table has a record under that id. *)
Theorem control_of_unknown_project id w :
  database w !! id = None →
  let rejected :=
    (Thrown (NotFound id) : result unit,
     log (EvCall (DbRetrieveProject id) (Some (NotFound id))) w) in
  halt docker id w = rejected
  ∧ pauseTraining docker id w = rejected
  ∧ resumeTraining docker id w = rejected.
Proof.
  intros Hp rejected. subst rejected.
  unfold halt, pauseTraining, resumeTraining, mbind, M_bind, bind, retrieveProject.
  by rewrite Hp.
Qed.

(** X7. However [halt] or [resumeTraining] comes to be rejected, the status
    table is as it was; and a failure of the runtime to kill or to resume
    the container is the rejection of the method. *)
Theorem control_rejection_keeps_status id w :
  (∀ e w', halt docker id w = (Thrown e, w') → status w' = status w)
  ∧ (∀ e w', resumeTraining docker id w = (Thrown e, w') → status w' = status w)
  ∧ (∀ p h msg x,
       database w !! id = Some p →
       train (ProjectData.containerIDs p) = Some h →
       truthy_handle (Some h) = true →
       Docker.killContainer docker h (ext w) = (Failed msg, x) →
       (halt docker id w).1 = Thrown (Failure msg))
  ∧ (∀ p r h msg x,
       database w !! id = Some p →
       status w !! id = Some r →
       trainingStatus r = PAUSED →
       train (ProjectData.containerIDs p) = Some h →
       Docker.resumeContainer docker h (ext w) = (Failed msg, x) →
       (resumeTraining docker id w).1 = Thrown (Failure msg)).
Proof.
  split; [|split; [|split]].
  - intros e w'.
    unfold halt, mbind, M_bind, bind, retrieveProject, throw, await_docker, updateState.
    destruct (database w !! id) as [p|]; simpl; [|by intros [= _ <-]].
    destruct (train (ProjectData.containerIDs p)) as [h|]; simpl; [|by intros [= _ <-]].
    destruct (String.eqb h ""); simpl; [by intros [= _ <-]|].
    destruct (Docker.killContainer docker h (ext w)) as [[[]|msg] x]; simpl;
      [|by intros [= _ <-]].
    destruct (status w !! ProjectData.id p); [done|by intros [= _ <-]].
  - intros e w'.
    unfold resumeTraining, mbind, M_bind, bind, retrieveProject, read_trainingStatus,
      throw, await_docker, updateState.
    destruct (database w !! id) as [p|]; simpl; [|by intros [= _ <-]].
    destruct (status w !! id) as [r|]; simpl; [|by intros [= _ <-]].
    destruct (decide (trainingStatus r ≠ PAUSED)); [by intros [= _ <-]|].
    destruct (train (ProjectData.containerIDs p)) as [h|]; [|by intros [= _ <-]]. simpl.
    destruct (Docker.resumeContainer docker h (ext w)) as [[[]|msg] x]; simpl;
      [|by intros [= _ <-]].
    destruct (status w !! ProjectData.id p); [done|by intros [= _ <-]].
  - intros p h msg x Hp Hh Ht Hk.
    unfold halt, mbind, M_bind, bind, retrieveProject, await_docker.
    rewrite Hp, Hh, Ht. simpl. by rewrite Hk.
  - intros p r h msg x Hp Hr Hs Hh Hk.
    unfold resumeTraining, mbind, M_bind, bind, retrieveProject, read_trainingStatus,
      await_docker.
    rewrite Hp. simpl. rewrite Hr. rewrite decide_False by (intros Hne; by apply Hne).
    rewrite Hh. simpl. by rewrite Hk.
Qed.

Lemma pauseTraining_resolved id p w w1 :
  database w !! id = Some p →
  pauseTraining docker id w = (Resolved (), w1) →
  ∃ r r' h x,
    status w !! id = Some r ∧ trainingStatus r ≠ PAUSED
    ∧ train (ProjectData.containerIDs p) = Some h
    ∧ Docker.pauseContainer docker h (ext w) = (Done (), x)
    ∧ status w !! ProjectData.id p = Some r'
    ∧ status w1 = <[ProjectData.id p := set_trainingStatus PAUSED r']> (status w)
    ∧ database w1 = database w ∧ ext w1 = x.
Proof.
  intros Hp.
  unfold pauseTraining, mbind, M_bind, bind, retrieveProject, read_trainingStatus,
    throw, await_docker, updateState.
  rewrite Hp. simpl.
  destruct (status w !! id) as [r|] eqn:Hr; simpl; [|done].
  destruct (decide (trainingStatus r = PAUSED)); [done|].
  destruct (train (ProjectData.containerIDs p)) as [h|] eqn:Hh; [|done]. simpl.
  destruct (Docker.pauseContainer docker h (ext w)) as [[[]|msg] x] eqn:Hk; simpl; [|done].
  destruct (status w !! ProjectData.id p) as [r'|] eqn:Hr'; [|done].
  intros [= <-]. by exists r, r', h, x.
Qed.

Lemma resumeTraining_resolved id p w w1 :
  database w !! id = Some p →
  resumeTraining docker id w = (Resolved (), w1) →
  ∃ r r' h x,
    status w !! id = Some r ∧ trainingStatus r = PAUSED
    ∧ train (ProjectData.containerIDs p) = Some h
    ∧ Docker.resumeContainer docker h (ext w) = (Done (), x)
    ∧ status w !! ProjectData.id p = Some r'
    ∧ status w1 = <[ProjectData.id p := set_trainingStatus TRAINING r']> (status w)
    ∧ database w1 = database w ∧ ext w1 = x.
Proof.
  intros Hp.
  unfold resumeTraining, mbind, M_bind, bind, retrieveProject, read_trainingStatus,
    throw, await_docker, updateState.
  rewrite Hp. simpl.
  destruct (status w !! id) as [r|] eqn:Hr; simpl; [|done].
  destruct (decide (trainingStatus r ≠ PAUSED)) as [|Hs]; [done|].
  apply dec_stable in Hs.
  destruct (train (ProjectData.containerIDs p)) as [h|] eqn:Hh; [|done]. simpl.
  destruct (Docker.resumeContainer docker h (ext w)) as [[[]|msg] x] eqn:Hk; simpl; [|done].
  destruct (status w !! ProjectData.id p) as [r'|] eqn:Hr'; [|done].
  intros [= <-]. by exists r, r', h, x.
Qed.

Lemma halt_resolved id p w w1 :
  database w !! id = Some p →
  halt docker id w = (Resolved (), w1) →
  ∃ r' h x,
    train (ProjectData.containerIDs p) = Some h
    ∧ truthy_handle (Some h) = true
    ∧ Docker.killContainer docker h (ext w) = (Done (), x)
    ∧ status w !! ProjectData.id p = Some r'
    ∧ status w1 = <[ProjectData.id p := set_trainingStatus NOT_TRAINING r']> (status w)
    ∧ database w1 = database w ∧ ext w1 = x
    ∧ history w1 = history w ++
        [ EvCall (DbRetrieveProject id) None;
          EvCall (DockerKillContainer h) None;
          EvTrainingStatus (ProjectData.id p) NOT_TRAINING ].
Proof.
  intros Hp.
  unfold halt, mbind, M_bind, bind, retrieveProject, throw, await_docker, updateState.
  rewrite Hp. simpl.
  destruct (train (ProjectData.containerIDs p)) as [h|] eqn:Hh; [|done].
  destruct (String.eqb h "") eqn:Ht; [done|]. simpl.
  destruct (Docker.killContainer docker h (ext w)) as [[[]|msg] x] eqn:Hk; simpl; [|done].
  destruct (status w !! ProjectData.id p) as [r'|] eqn:Hr'; [|done].
  intros [= <-]. exists r', h, x. simpl. rewrite Ht, <- !app_assoc. done.
Qed.

(** X8. Pausing a training project and then resuming it, with the runtime
    resolving both calls, brings the status table back to what it was
    before the pause (the record is [PAUSED] in between), and the store is
    untouched throughout. *)
Theorem pause_then_resume_round_trip id p r h (x1 x2 : Ext) w :
  database w !! id = Some p →
  ProjectData.id p = id →
  status w !! id = Some r →
  trainingStatus r = TRAINING →
  train (ProjectData.containerIDs p) = Some h →
  Docker.pauseContainer docker h (ext w) = (Done (), x1) →
  Docker.resumeContainer docker h x1 = (Done (), x2) →
  ∃ w1 w2,
    pauseTraining docker id w = (Resolved (), w1)
    ∧ trainingStatus <$> status w1 !! id = Some PAUSED
    ∧ resumeTraining docker id w1 = (Resolved (), w2)
    ∧ status w2 = status w
    ∧ database w2 = database w
    ∧ ext w2 = x2.
Proof.
  intros Hp Hid Hr Hs Hh Hk1 Hk2.
  eexists _, _. split.
  { unfold pauseTraining, mbind, M_bind, bind, retrieveProject, read_trainingStatus,
      await_docker, updateState.
    assert (Hne : trainingStatus r ≠ PAUSED) by (rewrite Hs; done).
    rewrite Hp. simpl. rewrite Hr. rewrite decide_False by done.
    rewrite Hh. simpl. rewrite Hk1. simpl. rewrite Hid, Hr. reflexivity. }
  simpl. split; [by rewrite lookup_insert_eq|]. split.
  { unfold resumeTraining, mbind, M_bind, bind, retrieveProject, read_trainingStatus,
      await_docker, updateState.
    simpl. rewrite Hp. simpl. rewrite lookup_insert_eq. simpl.
    rewrite Hh. simpl. rewrite Hk2. simpl. rewrite Hid, lookup_insert_eq. reflexivity. }
  simpl. split; [|done].
  rewrite insert_insert_eq. apply insert_id. rewrite Hr. f_equal.
  destruct r; simpl in *; by subst.
Qed.

(** X9. Over a store entry kept under its own id, [pauseTraining] and
    [resumeTraining] are not repeatable: once a pause has resolved a second
    one is rejected with "training is already paused", and once a resume has
    resolved a second one is rejected with "training is not paused"; the
    rejected call asks nothing of the runtime and changes no record. *)
Theorem pause_and_resume_not_repeatable id p w w1 :
  database w !! id = Some p →
  ProjectData.id p = id →
  (pauseTraining docker id w = (Resolved (), w1) →
     pauseTraining docker id w1
     = (Thrown (Rejected "training is already paused"),
        log (EvCall (DbRetrieveProject id) None) w1))
  ∧ (resumeTraining docker id w = (Resolved (), w1) →
     resumeTraining docker id w1
     = (Thrown (Rejected "training is not paused"),
        log (EvCall (DbRetrieveProject id) None) w1)).
Proof.
  intros Hp Hid. split; intros Hrun.
  - apply (pauseTraining_resolved id p) in Hrun
      as (r & r' & h & x & _ & _ & _ & _ & _ & Hs & Hd & _); [|done].
    unfold pauseTraining, mbind, M_bind, bind, retrieveProject, read_trainingStatus.
    rewrite Hd, Hp. simpl. rewrite Hs, Hid, lookup_insert_eq. simpl. done.
  - apply (resumeTraining_resolved id p) in Hrun
      as (r & r' & h & x & _ & _ & _ & _ & _ & Hs & Hd & _); [|done].
    unfold resumeTraining, mbind, M_bind, bind, retrieveProject, read_trainingStatus.
    rewrite Hd, Hp. simpl. rewrite Hs, Hid, lookup_insert_eq. simpl. done.
Qed.

(** X10. Once [halt] of a project kept under its own id has resolved, the
    project's handle is still in the store: [resumeTraining] is rejected
    with "training is not paused", while a second [halt] is not rejected
    with "no trainjob found" but asks the runtime to kill the same container
    again. *)
Theorem after_halt id p w w1 :
  database w !! id = Some p →
  ProjectData.id p = id →
  halt docker id w = (Resolved (), w1) →
  ∃ h,
    database w1 !! id = Some p
    ∧ train (ProjectData.containerIDs p) = Some h
    ∧ resumeTraining docker id w1
      = (Thrown (Rejected "training is not paused"),
         log (EvCall (DbRetrieveProject id) None) w1)
    ∧ (halt docker id w1).1 ≠ Thrown (Rejected "no trainjob found")
    ∧ ∃ evs, history (halt docker id w1).2
             = history w1 ++ EvCall (DbRetrieveProject id) None
                 :: EvCall (DockerKillContainer h)
                      (failure_of (settle (Docker.killContainer docker h (ext w1)).1))
                 :: evs.
Proof.
  intros Hp Hid Hrun.
  apply (halt_resolved id p) in Hrun
    as (r' & h & x & Hh & Ht & _ & _ & Hs & Hd & _ & _); [|done].
  exists h. rewrite Hd. split; [done|]. split; [done|]. split.
  - unfold resumeTraining, mbind, M_bind, bind, retrieveProject, read_trainingStatus.
    rewrite Hd, Hp. simpl. rewrite Hs, Hid, lookup_insert_eq. simpl. done.
  - unfold halt, mbind, M_bind, bind, retrieveProject, await_docker, updateState.
    rewrite Hd, Hp, Hh, Ht. simpl.
    destruct (Docker.killContainer docker h (ext w1)) as [[[]|msg] x']; simpl.
    + rewrite Hs, Hid, lookup_insert_eq. simpl. split; [done|].
      eexists. rewrite <- !app_assoc. reflexivity.
    + split; [done|]. exists []. rewrite <- !app_assoc. reflexivity.
Qed.
End ControlFurther.

(** ** Polling and readiness *)

Section PollingAndReadiness.
Context {Ext Export Test : Type} (docker : Docker.t Ext) (trainer : Trainer.t Ext).
Context (exporter : Exporter.t Ext Export) (tester : Tester.t Ext Test).
Implicit Types (w : @World Ext Export Test) (p : ProjectData.t).

(** X11. [updateCheckpoints id] writes nothing but the [currentEpoch] of the
    record of [id]: a step other than 0 reported by the trainer becomes the
    [currentEpoch], whatever the [trainingStatus] of the record; a report of
    0 or of nothing changes no record (polling cannot bring the epoch back
    to 0); a failure of the trainer is the rejection of the method; and a
    step reported for an id without a record, which is no name under which
    the table finds something it inherits, fails with a TypeError on the
    missing record. *)
Theorem updateCheckpoints_writes_epoch id w :
  let report := (Trainer.updateCheckpoints trainer id (database w, ext w)).1 in
  let run := updateCheckpoints (Export:=Export) (Test:=Test) trainer id w in
  (∀ j, j ≠ id → status run.2 !! j = status w !! j)
  ∧ trainingStatus <$> status run.2 !! id = trainingStatus <$> status w !! id
  ∧ lastEpoch <$> status run.2 !! id = lastEpoch <$> status w !! id
  ∧ (∀ n, report = Done (Some n) → n ≠ 0 → is_Some (status w !! id) →
       run.1 = Resolved () ∧ currentEpoch <$> status run.2 !! id = Some n)
  ∧ (∀ n, report = Done (Some n) → n ≠ 0 → status w !! id = None →
       inherited id = false →
       run.1 = Thrown TypeError ∧ status run.2 = status w)
  ∧ (report = Done None ∨ report = Done (Some 0) →
       run.1 = Resolved () ∧ status run.2 = status w)
  ∧ (∀ msg, report = Failed msg →
       run.1 = Thrown (Failure msg) ∧ status run.2 = status w).
Proof.
  intros report run. subst report run.
  unfold updateCheckpoints, mbind, M_bind, bind, await_stage, updateStep.
  destruct (Trainer.updateCheckpoints trainer id (database w, ext w))
    as [[[n|]|msg] [d x]]; simpl.
  - destruct (Z.eqb_spec n 0) as [->|Hn]; simpl.
    + repeat split; intros; simplify_eq/=; done.
    + destruct (status w !! id) as [r|] eqn:Hr; simpl.
      * repeat split; intros; simplify_eq/=;
          rewrite ?lookup_insert_eq, ?lookup_insert_ne by done;
          rewrite ?Hr; try done; intuition congruence.
      * repeat split; intros; simplify_eq/=; rewrite ?Hr; try done;
          try (intuition congruence);
          try (by match goal with H : inherited _ = false |- _ =>
                    unfold missing; rewrite H end);
          try (by match goal with H : is_Some None |- _ => destruct H end).
  - repeat split; intros; simplify_eq/=; done.
  - repeat split; intros; simplify_eq/=; try done; intuition congruence.
Qed.

Lemma ignores_readiness_bind {A B} (m : @M Ext Export Test A) (k : A → M B) :
  ignores_readiness m → (∀ a, ignores_readiness (k a)) → ignores_readiness (m ≫= k).
Proof.
  intros Hm Hk s w. unfold mbind, M_bind, bind. rewrite Hm.
  destruct (m w) as [[a|e] w1]; simpl; [|done]. rewrite Hk. by destruct (k a w1).
Qed.

Lemma ignores_readiness_mret {A} (a : A) : ignores_readiness (mret a : @M Ext Export Test A).
Proof. by intros s w. Qed.

Lemma ignores_readiness_throw {A} e : ignores_readiness (throw e : @M Ext Export Test A).
Proof. by intros s w. Qed.

Lemma ignores_readiness_await_stage {A} c (f : Eff (Database * Ext) A) :
  ignores_readiness (await_stage c f : @M Ext Export Test A).
Proof.
  intros s w. unfold await_stage. simpl. by destruct (f (database w, ext w)) as [o [d x]].
Qed.

Lemma ignores_readiness_await_docker {A} c (f : Eff Ext A) :
  ignores_readiness (await_docker c f : @M Ext Export Test A).
Proof. intros s w. unfold await_docker. simpl. by destruct (f (ext w)) as [o x]. Qed.

Lemma ignores_readiness_retrieveProject id :
  ignores_readiness (retrieveProject id : @M Ext Export Test ProjectData.t).
Proof. intros s w. unfold retrieveProject. simpl. by destruct (database w !! id). Qed.

Lemma ignores_readiness_pushProject p :
  ignores_readiness (pushProject p : @M Ext Export Test unit).
Proof. by intros s w. Qed.

Lemma ignores_readiness_updateState id st :
  ignores_readiness (updateState id st : @M Ext Export Test unit).
Proof. intros s w. unfold updateState. simpl. by destruct (status w !! id). Qed.

Lemma ignores_readiness_updateStep id n :
  ignores_readiness (updateStep id n : @M Ext Export Test unit).
Proof. intros s w. unfold updateStep. simpl. by destruct (status w !! id). Qed.

Lemma ignores_readiness_updateLastStep id n :
  ignores_readiness (updateLastStep id n : @M Ext Export Test unit).
Proof. intros s w. unfold updateLastStep. simpl. by destruct (status w !! id). Qed.

Lemma ignores_readiness_read id :
  ignores_readiness (read_trainingStatus id : @M Ext Export Test TrainingStatus).
Proof. intros s w. unfold read_trainingStatus. simpl. by destruct (status w !! id). Qed.

Local Ltac blind :=
  repeat first
    [ apply ignores_readiness_bind; [|intros ?]
    | apply ignores_readiness_mret
    | apply ignores_readiness_throw
    | apply ignores_readiness_await_stage
    | apply ignores_readiness_await_docker
    | apply ignores_readiness_retrieveProject
    | apply ignores_readiness_pushProject
    | apply ignores_readiness_updateState
    | apply ignores_readiness_updateStep
    | apply ignores_readiness_updateLastStep
    | apply ignores_readiness_read
    | case_match ].

(** X12. Readiness is no gate: [start], [export], [test], [halt],
    [pauseTraining], [resumeTraining] and [updateCheckpoints] neither read
    nor write [trainer_state].  Called before boot has reached [READY], or
    after it has ended in [NO_DOCKER_INSTALLED], each does exactly what it
    does in a ready service, and each leaves the readiness state as it
    found it. *)
Theorem readiness_is_no_gate :
  (∀ iproject, ignores_readiness (start (Export:=Export) (Test:=Test) trainer iproject))
  ∧ (∀ id n name, ignores_readiness (export (Test:=Test) exporter id n name))
  ∧ (∀ a b c d, ignores_readiness (test (Export:=Export) tester a b c d))
  ∧ (∀ id, ignores_readiness (halt (Export:=Export) (Test:=Test) docker id))
  ∧ (∀ id, ignores_readiness (pauseTraining (Export:=Export) (Test:=Test) docker id))
  ∧ (∀ id, ignores_readiness (resumeTraining (Export:=Export) (Test:=Test) docker id))
  ∧ (∀ id, ignores_readiness (updateCheckpoints (Export:=Export) (Test:=Test) trainer id))
  ∧ (∀ A (m : @M Ext Export Test A),
       ignores_readiness m → ∀ w, trainer_state (m w).2 = trainer_state w).
Proof.
  repeat split.
  - intros iproject. unfold start. blind.
  - intros id n name. unfold export. blind.
  - intros a b c d. unfold test. blind.
  - intros id. unfold halt. blind.
  - intros id. unfold pauseTraining. blind.
  - intros id. unfold resumeTraining. blind.
  - intros id. unfold updateCheckpoints. blind.
  - intros A m Hm w. specialize (Hm (trainer_state w) w).
    assert (Hw : with_trainer_state (trainer_state w) w = w) by by destruct w.
    rewrite Hw in Hm. destruct (m w) as [r w'] eqn:E. simpl in *.
    injection Hm as Hm. rewrite Hm. done.
Qed.
End PollingAndReadiness.

(** ** The export and test pipelines, further *)

Section PipelinesFurther.
Context {Ext Export Test : Type}.
Context (exporter : Exporter.t Ext Export) (tester : Tester.t Ext Test).
Implicit Types (w : @World Ext Export Test).

(** X13. Whatever its arguments and however it settles, [export] leaves the
    training-status table exactly as it found it. *)
Theorem export_keeps_status_table id (checkpointNumber : Z) (name : string) w :
  status (export exporter id checkpointNumber name w).2 = status w.
Proof.
  revert w.
  change (keeps_status (export (Test:=Test) exporter id checkpointNumber name)).
  unfold export.
  repeat first
    [ apply keeps_status_bind; [|intros ?]
    | apply keeps_status_await_stage
    | apply keeps_status_mret ].
Qed.

Local Ltac unmarked_leaf :=
  intros [= <- <-]; eexists;
  split; [simpl; rewrite <- ?app_assoc; simpl; reflexivity|];
  intros Hset;
  first
    [ solve [exfalso; apply Hset; find_elem]
    | split;
      [ intros mark; simpl; rewrite !in_use_app; simpl; done
      | intros c f Hc Hin; simpl in Hin;
        rewrite ?elem_of_cons, ?elem_of_nil in Hin;
        repeat (destruct Hin as [Hin|Hin]; simplify_eq/=); done ] ].

(** X14. An [export] that is rejected before the call marking the checkpoint
    in use has resolved (the checkpoint was not found, the export record or
    its directory could not be created, or the marking itself failed) leaves
    the in-use mark as it was and has made none of the steps inside the
    bracket: no parameter file written, no container run, no export saved. *)
Theorem export_rejected_before_marking id (checkpointNumber : Z) (name : string) w
    (e : Err) w' :
  export exporter id checkpointNumber name w = (Thrown e, w') →
  ∃ evs,
    history w' = history w ++ evs
    ∧ (EvCall (ExporterUpdateCheckpointStatus id checkpointNumber true) None ∉ evs →
       (∀ mark, in_use id checkpointNumber mark (history w')
                = in_use id checkpointNumber mark (history w))
       ∧ (∀ c f, inside_bracket c = true → EvCall c f ∉ evs)).
Proof.
  unfold export, mbind, M_bind, bind, await_stage, mret, M_ret, ret. simpl.
  destruct (Exporter.locateCheckpoint exporter id checkpointNumber (database w, ext w))
    as [[[]|m1] [d1 x1]]; simpl; [|unmarked_leaf].
  destruct (Exporter.createExport exporter id name (d1, x1))
    as [[exp|m2] [d2 x2]]; simpl; [|unmarked_leaf].
  destruct (Exporter.createDestinationDirectory exporter exp (d2, x2))
    as [[[]|m3] [d3 x3]]; simpl; [|unmarked_leaf].
  destruct (Exporter.updateCheckpointStatus exporter id checkpointNumber true (d3, x3))
    as [[[]|m4] [d4 x4]]; simpl; [|unmarked_leaf].
  destruct (Exporter.writeParameterFile exporter id checkpointNumber exp (d4, x4))
    as [[[]|m5] [d5 x5]]; simpl; [|unmarked_leaf].
  destruct (Exporter.exportCheckpoint exporter id (d5, x5))
    as [[[]|m6] [d6 x6]]; simpl; [|unmarked_leaf].
  destruct (Exporter.saveExport exporter id exp checkpointNumber (d6, x6))
    as [[[]|m7] [d7 x7]]; simpl; [|unmarked_leaf].
  destruct (Exporter.updateCheckpointStatus exporter id checkpointNumber false (d7, x7))
    as [[[]|m8] [d8 x8]]; simpl; [done|unmarked_leaf].
Qed.

(** X15. [test] creates the test record before it looks the project up: for
    a project id the store does not know, [createTest] has been called and
    has resolved when [test] is rejected by the lookup, and no other step of
    the tester is made; when [createTest] itself fails, the store is not
    consulted at all. *)
Theorem test_creates_before_lookup (testName projectID exportID videoID : string) w
    (o : outcome Test) (d : Database) (x : Ext) :
  Tester.createTest tester testName projectID exportID videoID (database w, ext w)
    = (o, (d, x)) →
  let run := test (Export:=Export) tester testName projectID exportID videoID w in
  match o with
  | Failed msg =>
      run.1 = Thrown (Failure msg)
      ∧ calls (history run.2)
        = calls (history w) ++ [TesterCreateTest testName projectID exportID videoID]
  | Done t =>
      d !! projectID = None →
      run.1 = Thrown (NotFound projectID)
      ∧ calls (history run.2)
        = calls (history w) ++
            [TesterCreateTest testName projectID exportID videoID;
             DbRetrieveProject projectID]
      ∧ database run.2 = d ∧ ext run.2 = x
  end.
Proof.
  intros Hc run. subst run.
  unfold test, mbind, M_bind, bind, await_stage, retrieveProject. rewrite Hc.
  destruct o as [t|msg]; simpl.
  - intros Hn. rewrite Hn. simpl. unfold calls.
    rewrite <- app_assoc, omap_app. done.
  - unfold calls. by rewrite omap_app.
Qed.

(** X16. A [test] that resolves returns "testing complete" after exactly
    the eight steps of the pipeline in their order: the project is the
    store's record under [projectID] as [createTest] left the store, the
    model and the video are mounted under that project's directory, the
    parameter file is written with the two paths the mounts returned, and
    the container is run and the test saved under the project's own id. *)
Theorem test_resolved (testName projectID exportID videoID : string) w (s : string) w' :
  test tester testName projectID exportID videoID w = (Resolved s, w') →
  ∃ t project model video d1 x1 s2 s3,
    s = "testing complete"
    ∧ Tester.createTest tester testName projectID exportID videoID (database w, ext w)
      = (Done t, (d1, x1))
    ∧ d1 !! projectID = Some project
    ∧ Tester.mountModel tester t (ProjectData.directory project) (d1, x1) = (Done model, s2)
    ∧ Tester.mountVideo tester t (ProjectData.directory project) s2 = (Done video, s3)
    ∧ history w' = history w ++
        test_history testName projectID exportID videoID t project model video.
Proof.
  unfold test, mbind, M_bind, bind, await_stage, retrieveProject, mret, M_ret, ret.
  destruct (Tester.createTest tester testName projectID exportID videoID (database w, ext w))
    as [[t|m1] [d1 x1]] eqn:H1; simpl; [|done].
  destruct (d1 !! projectID) as [project|] eqn:Hp; simpl; [|done].
  destruct (Tester.mountModel tester t (ProjectData.directory project) (d1, x1))
    as [[model|m2] [d2 x2]] eqn:H2; simpl; [|done].
  destruct (Tester.mountVideo tester t (ProjectData.directory project) (d2, x2))
    as [[video|m3] [d3 x3]] eqn:H3; simpl; [|done].
  destruct (Tester.writeParameterFile tester (ProjectData.directory project) model video
              (d3, x3)) as [[[]|m4] [d4 x4]]; simpl; [|done].
  destruct (Tester.testModel tester (ProjectData.id project) (d4, x4))
    as [[[]|m5] [d5 x5]]; simpl; [|done].
  destruct (Tester.saveOutputVid tester t (ProjectData.directory project) (d5, x5))
    as [[[]|m6] [d6 x6]]; simpl; [|done].
  destruct (Tester.saveTest tester t (ProjectData.id project) (d6, x6))
    as [[[]|m7] [d7 x7]]; simpl; [|done].
  intros [= <- <-].
  exists t, project, model, video, d1, x1, (d2, x2), (d3, x3).
  repeat split; try done. simpl. by rewrite <- !app_assoc.
Qed.
End PipelinesFurther.

(** ** The project menu *)


(** ** Further runs of the sample service *)

Lemma sample_trainer_reliable : reliable_trainer Sample.trainer.
Proof. intros id. repeat split; intros s; by eexists _, _. Qed.

(** A boot that cannot pull the metrics image still seeds both projects. *)
Lemma boot_seeds_status_table_witness :
  let booted :=
    (prepare Faulty.offline (constructed Faulty.store () : @World unit string string)).2 in
  trainer_state booted = METRICS_PULL
  ∧ status booted !! "p" = Some (Sample.record NOT_TRAINING 0)
  ∧ status booted !! "q"
    = Some {| trainingStatus := NOT_TRAINING; currentEpoch := 0; lastEpoch := 20 |}
  ∧ status booted !! "r" = None.
Proof.
  destruct (boot_seeds_status_table (Export:=string) (Test:=string)
              Faulty.offline Faulty.store () two_projects_well_keyed) as [_ Hseed].
  simpl in Hseed. split; [by vm_compute|].
  rewrite !Hseed. by vm_compute.
Defined.

(** The second project started right after that boot. *)
Lemma boot_then_start_witness :
  ∃ w', start Sample.trainer {| Project.id := "q" |}
          (prepare Faulty.offline (constructed Faulty.store () : @World unit string string)).2
        = (Resolved "training complete", w')
        ∧ status w' !! "q" = Some (seeded Faulty.second)
        ∧ database w' !! "q" = Some (set_train None Faulty.second).
Proof.
  apply (boot_then_start Faulty.offline Sample.trainer Faulty.store () "q" Faulty.second).
  - reflexivity.
  - apply two_projects_well_keyed.
  - by vm_compute.
  - apply sample_trainer_reliable.
Defined.

(** A second [start] of a project that is already training. *)
Lemma start_runs_to_completion_witness :
  ∃ w', start Sample.trainer {| Project.id := "p" |} Sample.training
        = (Resolved "training complete", w')
        ∧ status w' = <["p" := seeded (Sample.project (Some "c1"))]> (status Sample.training)
        ∧ history w' = [] ++ start_history "p" (Sample.project (Some "c1")).
Proof.
  apply (start_runs_to_completion Sample.trainer {| Project.id := "p" |}
           (Sample.project (Some "c1")) (Sample.record TRAINING 3) Sample.training).
  - apply sample_trainer_reliable.
  - by vm_compute.
  - by vm_compute.
Defined.

(** A second run on the training project whose first step fails: the
    record is [PREPARING], the epoch and the handle are as they were. *)
Example start_preparation_fails :
  let run := start Faulty.unprepared {| Project.id := "p" |} Sample.training in
  run.1 = Thrown (Failure "disk full")
  ∧ status run.2 !! "p" = Some (Sample.record PREPARING 3)
  ∧ database run.2 !! "p" = Some (Sample.project (Some "c1"))
  ∧ calls (history run.2) = [DbRetrieveProject "p"; TrainerWriteParameterFile "p"].
Proof. by vm_compute. Qed.

(** A run whose training container fails. *)
Lemma start_stops_at_failed_step_witness :
  ∃ w' evs,
    start Faulty.trainer {| Project.id := "p" |} Sample.idle
    = (Thrown (Failure "container exited"), w')
    ∧ history w' = [] ++ evs
    ∧ last evs = Some (EvCall (TrainerTrainModel "p") (Some (Failure "container exited")))
    ∧ pushed evs = []
    ∧ status w' !! "p" = Some (Sample.record TRAINING 0).
Proof.
  destruct (start_stops_at_failed_step Faulty.trainer {| Project.id := "p" |}
              (Sample.project None) (Sample.record NOT_TRAINING 0) Sample.idle
              (TrainerTrainModel "p") "container exited" eq_refl eq_refl eq_refl)
    as (w' & evs & Hrun & Hh & Hlast & _ & Hpush & Hs & _).
  by exists w', evs.
Defined.

(** A run for an id the store does not know, and one for a project the
    status table has not seen. *)
Lemma start_rejected_before_training_witness :
  (start Sample.trainer {| Project.id := "zz" |} Sample.idle).1 = Thrown (NotFound "zz")
  ∧ start Sample.trainer {| Project.id := "p" |} Sample.unseen
    = (Thrown TypeError, log (EvCall (DbRetrieveProject "p") None) Sample.unseen)
  ∧ calls (history (start Sample.trainer {| Project.id := "p" |} Sample.unseen).2)
    = [DbRetrieveProject "p"].
Proof.
  destruct (start_rejected_before_training Sample.trainer {| Project.id := "zz" |}
              Sample.idle) as [Hunknown _].
  destruct (start_rejected_before_training Sample.trainer {| Project.id := "p" |}
              Sample.unseen) as [_ Hunseen].
  rewrite (Hunknown eq_refl).
  rewrite (Hunseen (Sample.project (Some "c1")) eq_refl eq_refl eq_refl).
  done.
Defined.

(** The controls on an id the store does not know. *)
Lemma control_of_unknown_project_witness :
  (halt Sample.docker "zz" Sample.training).1 = Thrown (NotFound "zz")
  ∧ (pauseTraining Sample.docker "zz" Sample.training).1 = Thrown (NotFound "zz")
  ∧ (resumeTraining Sample.docker "zz" Sample.training).1 = Thrown (NotFound "zz").
Proof.
  destruct (control_of_unknown_project Sample.docker "zz" Sample.training)
    as (-> & -> & ->); [by vm_compute|done].
Defined.

(** The training project paused and resumed. *)
Lemma pause_then_resume_round_trip_witness :
  ∃ w1 w2,
    pauseTraining Sample.docker "p" Sample.training = (Resolved (), w1)
    ∧ trainingStatus <$> status w1 !! "p" = Some PAUSED
    ∧ resumeTraining Sample.docker "p" w1 = (Resolved (), w2)
    ∧ status w2 = status Sample.training
    ∧ database w2 = database Sample.training
    ∧ ext w2 = ().
Proof.
  apply (pause_then_resume_round_trip Sample.docker "p" (Sample.project (Some "c1"))
           (Sample.record TRAINING 3) "c1" () () Sample.training); by vm_compute.
Defined.

(** A second pause of the training project. *)
Lemma pause_and_resume_not_repeatable_witness :
  (pauseTraining Sample.docker "p"
     (pauseTraining Sample.docker "p" Sample.training).2).1
  = Thrown (Rejected "training is already paused").
Proof.
  destruct (pause_and_resume_not_repeatable Sample.docker "p" (Sample.project (Some "c1"))
              Sample.training (pauseTraining Sample.docker "p" Sample.training).2)
    as [Hpause _]; [by vm_compute|done|].
  rewrite Hpause; [done|by vm_compute].
Defined.

(** The training project halted, then resumed and halted again. *)
Lemma after_halt_witness :
  (resumeTraining Sample.docker "p" (halt Sample.docker "p" Sample.training).2).1
    = Thrown (Rejected "training is not paused")
  ∧ (halt Sample.docker "p" (halt Sample.docker "p" Sample.training).2).1
    ≠ Thrown (Rejected "no trainjob found").
Proof.
  destruct (after_halt Sample.docker "p" (Sample.project (Some "c1")) Sample.training
              (halt Sample.docker "p" Sample.training).2)
    as (h & _ & _ & -> & Hagain & _); [by vm_compute|done|by vm_compute|].
  split; [done|exact Hagain].
Defined.

(** A poll of the training project, answered with step 7, and a poll of a
    project the status table has not seen. *)
Lemma updateCheckpoints_writes_epoch_witness :
  (updateCheckpoints Sample.trainer "p" Sample.training).1 = Resolved ()
  ∧ status (updateCheckpoints Sample.trainer "p" Sample.training).2 !! "p"
    = Some (Sample.record TRAINING 7)
  ∧ (updateCheckpoints Sample.trainer "p" Sample.unseen).1 = Thrown TypeError
  ∧ status (updateCheckpoints Sample.trainer "p" Sample.unseen).2 = ∅.
Proof.
  destruct (updateCheckpoints_writes_epoch (Export:=string) (Test:=string)
              Sample.trainer "p" Sample.training) as (_ & _ & _ & Hstep & _).
  destruct (Hstep 7 eq_refl) as [Hr _]; [done|by eexists|].
  destruct (updateCheckpoints_writes_epoch (Export:=string) (Test:=string)
              Sample.trainer "p" Sample.unseen) as (_ & _ & _ & _ & Hmiss & _).
  destruct (Hmiss 7 eq_refl) as [He Hs]; [done|done|done|].
  split; [exact Hr|]. split; [by vm_compute|]. split; [exact He|exact Hs].
Defined.

(** An export of a checkpoint that is not found. *)
Lemma export_rejected_before_marking_witness :
  in_use "p" 4 true (history (export Faulty.exporter "p" 4 "model" Sample.idle).2)
  = in_use "p" 4 true (history Sample.idle).
Proof.
  destruct (export_rejected_before_marking Faulty.exporter "p" 4 "model" Sample.idle
              (Failure "checkpoint not found")
              (export Faulty.exporter "p" 4 "model" Sample.idle).2)
    as (evs & Hh & Hun).
  { by vm_compute. }
  apply Hun. vm_compute in Hh. subst evs.
  intros Hin. rewrite !elem_of_cons, elem_of_nil in Hin.
  by destruct Hin as [[=]|[]].
Defined.

(** A test of a project the store does not know. *)
Lemma test_creates_before_lookup_witness :
  (test Sample.tester "t" "zz" "model" "video" Sample.idle).1 = Thrown (NotFound "zz")
  ∧ calls (history (test Sample.tester "t" "zz" "model" "video" Sample.idle).2)
    = [TesterCreateTest "t" "zz" "model" "video"; DbRetrieveProject "zz"].
Proof.
  destruct (test_creates_before_lookup Sample.tester "t" "zz" "model" "video" Sample.idle
              (Done "t") (database Sample.idle) () eq_refl)
    as (Hr & Hc & _); [by vm_compute|].
  split; [exact Hr|exact Hc].
Defined.

(** A test of the idle project. *)
Lemma test_resolved_witness :
  ∃ t project model video,
    history (test Sample.tester "t" "p" "model" "video" Sample.idle).2
    = [] ++ test_history "t" "p" "model" "video" t project model video.
Proof.
  destruct (test_resolved Sample.tester "t" "p" "model" "video" Sample.idle
              "testing complete"
              (test Sample.tester "t" "p" "model" "video" Sample.idle).2)
    as (t & project & model & video & d1 & x1 & s2 & s3 & _ & _ & _ & _ & _ & Hh).
  { by vm_compute. }
  by exists t, project, model, video.
Defined.
